(** * Urban Woodspace AI backend: the design-generation route

    A shallow embedding of [src/app/api/ai-design-visual/route.ts]: the
    analysis extractors, the design-variation builder with its lookup
    tables, the cost estimator, the image-prompt composer, the generation
    loop of [POST] and the HTTP layer around it ([corsHeaders], [OPTIONS],
    [checkRateLimit], the checks and branches of [POST]), followed by the
    properties proved of them.  [logLead] only writes to the console and
    is left out.

    Conventions of the embedding.
    - Strings are [string]s of 8-bit characters; every literal of the
      source that the functions below use is ASCII, and [toLowerCase] /
      [toUpperCase] act on the ASCII letters.  On a character outside
      ASCII the source applies the Unicode case mappings, which are not
      embedded: what is stated of the result of a case mapping is stated
      of ASCII strings.
    - [preferences] is [any] in the source (it comes from [JSON.parse]).
      The functions that read it are embedded for a record of the six
      fields the code reads, each a string.  The form of a request
      ([PreferencesField]) tells this case from the others: a text that
      does not parse, [null], and a parsed value with a missing or
      non-string field, whose run is not embedded.
    - A tier is one of the three literals the call sites pass.
    - Numbers are binary64 floats ([PrimFloat]).
    - An object literal used as a lookup table is a list of its own
      properties in source order; reading a key goes through [get],
      which, like JavaScript's property access, also finds the members
      every object literal inherits from [Object.prototype].
    - Code that can raise returns a [Completion]. *)

From Stdlib Require Import String Ascii List ZArith Bool Lia Floats.
From Stdlib Require Import DecimalString.
Import ListNotations.

Set Warnings "-inexact-float".
Open Scope string_scope.

(** ** JavaScript strings *)

Module JsString.

Definition lower_char (c : ascii) : ascii :=
  let n := nat_of_ascii c in
  if (65 <=? n)%nat && (n <=? 90)%nat then ascii_of_nat (n + 32) else c.

Definition upper_char (c : ascii) : ascii :=
  let n := nat_of_ascii c in
  if (97 <=? n)%nat && (n <=? 122)%nat then ascii_of_nat (n - 32) else c.

Fixpoint toLowerCase (s : string) : string :=
  match s with
  | EmptyString => EmptyString
  | String c s' => String (lower_char c) (toLowerCase s')
  end.

Fixpoint toUpperCase (s : string) : string :=
  match s with
  | EmptyString => EmptyString
  | String c s' => String (upper_char c) (toUpperCase s')
  end.

(** [s.startsWith(k)] *)
Fixpoint startsWith (s k : string) {struct k} : bool :=
  match k, s with
  | EmptyString, _ => true
  | String _ _, EmptyString => false
  | String a k', String b s' => Ascii.eqb a b && startsWith s' k'
  end.

(** [s.includes(k)]: [k] occurs in [s] at some position. *)
Fixpoint includes (s k : string) : bool :=
  startsWith s k ||
  match s with
  | EmptyString => false
  | String _ s' => includes s' k
  end.

Definition newline : ascii := ascii_of_nat 10.

(** [s.split("\n")]: never empty, the empty string gives one empty line. *)
Fixpoint split_lines (s : string) : list string :=
  match s with
  | EmptyString => [EmptyString]
  | String c s' =>
      if Ascii.eqb c newline then EmptyString :: split_lines s'
      else match split_lines s' with
           | l :: ls => String c l :: ls
           | [] => [String c EmptyString]
           end
  end.

(** White space of [trim] among the 8-bit characters: tab, line feed,
    vertical tab, form feed, carriage return and space. *)
Definition is_space (c : ascii) : bool :=
  let n := nat_of_ascii c in
  ((9 <=? n)%nat && (n <=? 13)%nat) || (n =? 32)%nat.

Fixpoint trimStart (s : string) : string :=
  match s with
  | EmptyString => EmptyString
  | String c s' => if is_space c then trimStart s' else s
  end.

Fixpoint trimEnd (s : string) : string :=
  match s with
  | EmptyString => EmptyString
  | String c s' =>
      match trimEnd s' with
      | EmptyString => if is_space c then EmptyString else String c EmptyString
      | t => String c t
      end
  end.

Definition trim (s : string) : string := trimEnd (trimStart s).

(** [l.join(sep)] *)
Definition join (sep : string) (l : list string) : string := String.concat sep l.

(** A string is truthy when it is not empty. *)
Definition truthy (s : string) : bool := negb (s =? "").

(** [a || d] where [a] is a string, [null] or [undefined]. *)
Definition or_else (a : option string) (d : string) : string :=
  match a with
  | Some s => if truthy s then s else d
  | None => d
  end.

End JsString.

Import JsString.

(** ** Completions: a value, or a raised error *)

Inductive Completion (A : Type) : Type :=
| Normal (a : A)
| Throw (error : string).

Arguments Normal {A} a.
Arguments Throw {A} error.

Definition bind {A B : Type} (c : Completion A) (k : A -> Completion B) : Completion B :=
  match c with
  | Normal a => k a
  | Throw e => Throw e
  end.

Notation "'let*' x ':=' c 'in' k" := (bind c (fun x => k))
  (at level 10, x name, c at level 100, k at level 200).

(** ** Property lookup in an object literal *)

Module JsObject.

(** The property names every object literal inherits from
    [Object.prototype]: eleven functions and the [__proto__] accessor.
    Each of them reads as a truthy value that is not a string, not a number
    and not an array. *)
Definition object_prototype_keys : list string :=
  [ "constructor"; "__defineGetter__"; "__defineSetter__"; "hasOwnProperty";
    "__lookupGetter__"; "__lookupSetter__"; "isPrototypeOf";
    "propertyIsEnumerable"; "toString"; "valueOf"; "__proto__";
    "toLocaleString" ].

Definition inherited (k : string) : bool :=
  existsb (String.eqb k) object_prototype_keys.

(** What [o[k]] finds: an own property, an inherited member of
    [Object.prototype], or nothing ([undefined]). *)
Inductive Lookup (A : Type) : Type :=
| Own (a : A)
| Inherited (member : string)
| Absent.

Arguments Own {A} a.
Arguments Inherited {A} member.
Arguments Absent {A}.

Fixpoint own_property {A : Type} (o : list (string * A)) (k : string) : option A :=
  match o with
  | [] => None
  | (k', a) :: o' => if String.eqb k k' then Some a else own_property o' k
  end.

Definition get {A : Type} (o : list (string * A)) (k : string) : Lookup A :=
  match own_property o k with
  | Some a => Own a
  | None => if inherited k then Inherited k else Absent
  end.

Definition keys {A : Type} (o : list (string * A)) : list string := map fst o.

End JsObject.

Import JsObject.

(** ** Values stored in the objects the route builds *)

Inductive Value : Type :=
| VString (s : string)
| VArray (items : list string)
| VPrototypeMember (member : string).

(** ** The request's preferences *)

Record Preferences : Type := {
  kitchenStyle : string;
  colorPreference : string;
  budgetRange : string;
  storageNeeds : string;
  cookingHabits : string;
  familySize : string
}.

(** ** Tiers

    The second key of the style and palette tables and the key of the
    feature table.  Every call in the source passes one of the literals
    ["primary"], ["enhanced"], ["value"] (the default of
    [getLayoutOptimization] is ["primary"]). *)

Inductive Tier : Type := primary | enhanced | value.

Record PerTier (A : Type) : Type := {
  for_primary : A;
  for_enhanced : A;
  for_value : A
}.

Arguments for_primary {A} _.
Arguments for_enhanced {A} _.
Arguments for_value {A} _.

Definition at_tier {A : Type} (t : PerTier A) (tier : Tier) : A :=
  match tier with
  | primary => for_primary t
  | enhanced => for_enhanced t
  | value => for_value t
  end.

(** ** Lookup tables of the variation builder *)

Definition styles : list (string * PerTier string) :=
  [ ("contemporary",
     {| for_primary := "Flat-panel doors with sleek brushed hardware";
        for_enhanced := "Handleless flat-panel with integrated pulls and soft-close";
        for_value := "Clean flat-panel with modern hardware" |});
    ("traditional",
     {| for_primary := "Raised-panel doors with classic brass hardware";
        for_enhanced := "Detailed raised-panel with crown molding and premium finishes";
        for_value := "Simple raised-panel with traditional pulls" |});
    ("transitional",
     {| for_primary := "Shaker-style doors with brushed nickel hardware";
        for_enhanced := "Premium Shaker with soft-close mechanisms and custom details";
        for_value := "Classic Shaker with standard hardware" |});
    ("modern",
     {| for_primary := "Ultra-flat doors with minimal linear hardware";
        for_enhanced := "Integrated handle-less design with push-to-open";
        for_value := "Simple flat doors with sleek pulls" |});
    ("farmhouse",
     {| for_primary := "Beadboard doors with rustic bronze hardware";
        for_enhanced := "Detailed farmhouse with decorative elements and vintage accents";
        for_value := "Simple farmhouse style with classic pulls" |});
    ("scandinavian",
     {| for_primary := "Light wood doors with minimal black hardware";
        for_enhanced := "Premium wood grain with integrated handles and natural finishes";
        for_value := "Natural wood with simple hardware" |});
    ("industrial",
     {| for_primary := "Metal-accented doors with industrial black hardware";
        for_enhanced := "Mixed materials with exposed elements and custom metalwork";
        for_value := "Industrial-inspired with metal accents" |}) ].

Definition palettes : list (string * PerTier string) :=
  [ ("light-neutral",
     {| for_primary := "Crisp whites with warm gray accents and quartz counters";
        for_enhanced := "Premium whites with marble-inspired veining and gold accents";
        for_value := "Clean whites with subtle gray undertones" |});
    ("dark-dramatic",
     {| for_primary := "Deep charcoal with contrasting light quartz counters";
        for_enhanced := "Rich navy with brass accent hardware and marble backsplash";
        for_value := "Dark gray with white contrast elements" |});
    ("warm-wood",
     {| for_primary := "Natural oak with complementary earth tones and granite";
        for_enhanced := "Premium walnut with brass accents and natural stone";
        for_value := "Warm maple with classic finishes" |});
    ("two-tone",
     {| for_primary := "White uppers with gray lowers and coordinated hardware";
        for_enhanced := "Contrasting island with premium coordinated colors and finishes";
        for_value := "Simple two-tone with balanced contrast" |});
    ("bold-colors",
     {| for_primary := "Custom color with neutral balance and modern accents";
        for_enhanced := "Rich color with premium accent materials and designer touches";
        for_value := "Tasteful color with classic combinations" |}) ].

Definition baseFeatures : PerTier (list string) :=
  {| for_primary :=
       [ "Soft-close doors and drawers";
         "Under-cabinet LED lighting";
         "Quartz countertops";
         "Custom storage solutions";
         "Premium hardware finishes";
         "Professional installation" ];
     for_enhanced :=
       [ "Premium soft-close mechanisms";
         "Integrated LED lighting system";
         "Luxury quartz with waterfall edge";
         "Advanced storage organization";
         "Designer hardware collection";
         "Built-in charging stations";
         "Custom crown molding" ];
     for_value :=
       [ "Quality soft-close hinges";
         "LED under-cabinet strips";
         "Durable quartz surfaces";
         "Efficient storage design";
         "Stylish hardware selection";
         "Professional installation" ] |}.

Definition features : list (string * list string) :=
  [ ("maximum-storage",
     [ "Floor-to-ceiling cabinets with crown molding";
       "Deep drawer systems with full extension slides";
       "Corner cabinet solutions with lazy susans";
       "Pantry organization systems with pull-out shelves" ]);
    ("organized-storage",
     [ "Pull-out drawer organizers with dividers";
       "Spice rack systems and condiment storage";
       "Divided storage compartments for utensils";
       "Lazy Susan corner units for easy access" ]);
    ("display-storage",
     [ "Glass-front upper cabinets with interior lighting";
       "Open shelving displays for decorative items";
       "Wine storage features and glass racks";
       "Decorative storage elements and display niches" ]);
    ("hidden-storage",
     [ "Integrated appliance panels for seamless look";
       "Hidden storage compartments and secret drawers";
       "Seamless cabinet integration with walls";
       "Concealed organization systems behind doors" ]);
    ("pantry-storage",
     [ "Walk-in pantry design with custom shelving";
       "Pull-out pantry systems with wire baskets";
       "Food storage organization with clear containers";
       "Bulk storage solutions for Calgary families" ]) ].

Definition generic_storage_features : list string :=
  [ "Custom storage solutions tailored to your needs";
    "Organized cabinet interiors with adjustable shelves";
    "Efficient space utilization for Calgary homes";
    "Quality storage hardware with lifetime warranty" ].

Definition enhanced_storage_features : list string :=
  [ "Smart storage technology integration";
    "Premium organization systems with soft-close" ].

(** ** The variation builder's helpers *)

(** [l.push(x)] on a list that is threaded through the function. *)
Definition push {A : Type} (l : list A) (x : A) : list A := (l ++ [x])%list.

(** [str.charAt(0).toUpperCase() + str.slice(1)], for a first character
    in ASCII: a lower-case letter becomes the upper-case one and any other
    character stays.  For a first character outside ASCII the source
    applies the Unicode mapping, which can give more than one character
    (U+00DF gives [SS]); that mapping is not embedded, and the character
    is kept here. *)
Definition capitalizeFirst (str : string) : string :=
  match str with
  | EmptyString => EmptyString
  | String c rest => String (upper_char c) rest
  end.

(** [table[key]?.[tier]]: the tier entry of an own row; [undefined] when
    the key finds nothing, and also when it finds a member of
    [Object.prototype], none of which has a property named after a tier. *)
Definition tier_entry (table : list (string * PerTier string)) (key : string)
    (tier : Tier) : option string :=
  match get table key with
  | Own row => Some (at_tier row tier)
  | Inherited _ => None
  | Absent => None
  end.

Definition getCabinetStyle (style : string) (tier : Tier) : string :=
  or_else (tier_entry styles style tier) "Custom cabinet style".

Definition getColorPalette (colorPref : string) (tier : Tier) : string :=
  or_else (tier_entry palettes colorPref tier)
          "Custom color palette designed for your space".

(** [baseFeatures[tier] || baseFeatures.primary]: with [tier] one of the
    three keys the left operand is an array, hence truthy. *)
Definition getKeyFeatures (style storage cooking : string) (tier : Tier) : list string :=
  at_tier baseFeatures tier.

Definition getLayoutOptimization (cooking storage : string) (tier : Tier) : list string :=
  let optimizations := [] in
  let optimizations :=
    if includes cooking "daily" || includes cooking "frequent"
    then push (push optimizations "Optimized work triangle for efficient cooking")
              "Multiple prep areas for complex meals"
    else optimizations in
  let optimizations :=
    if includes cooking "entertainer"
    then push (push optimizations "Open layout for social cooking and entertaining")
              "Extended counter space for serving guests"
    else optimizations in
  let optimizations :=
    if includes storage "maximum"
    then push (push optimizations "Floor-to-ceiling storage maximization")
              "Corner cabinet optimization with lazy susans"
    else optimizations in
  let optimizations :=
    match tier with
    | enhanced =>
        push (push optimizations "Smart appliance integration zones")
             "Hidden storage solutions and secret compartments"
    | _ => optimizations
    end in
  if (0 <? length optimizations)%nat
  then optimizations
  else [ "Improved workflow efficiency"; "Optimized storage placement";
         "Enhanced counter workspace" ].

(** [features[storage] || [...]], then the spread for the enhanced tier.
    An inherited member of [Object.prototype] is truthy, so it is what
    [baseFeatures] holds; it is not iterable, so spreading it raises. *)
Definition getStorageFeatures (storage : string) (tier : Tier) : Completion Value :=
  let baseFeatures :=
    match get features storage with
    | Own items => VArray items
    | Inherited member => VPrototypeMember member
    | Absent => VArray generic_storage_features
    end in
  match tier with
  | enhanced =>
      match baseFeatures with
      | VArray items => Normal (VArray (items ++ enhanced_storage_features)%list)
      | _ => Throw "TypeError: baseFeatures is not iterable"
      end
  | _ => Normal baseFeatures
  end.

(** ** Design variations *)

Record DesignVariation : Type := {
  name : string;
  description : string;
  cabinetStyle : string;
  colorPalette : string;
  keyFeatures : list string;
  timeline : string;
  complexity : string;
  whyThisWorks : string;
  layoutOptimization : list string;
  storageFeatures : Value
}.

Definition createDesignVariations (preferences : Preferences)
    : Completion (list DesignVariation) :=
  let baseStyle := kitchenStyle preferences in
  let colorPref := colorPreference preferences in
  let budget := budgetRange preferences in
  let storage := storageNeeds preferences in
  let cooking := cookingHabits preferences in
  let variations := [] in
  (* Primary design based on user's exact preferences *)
  let* primaryStorage := getStorageFeatures storage primary in
  let variations := push variations
    {| name := "Custom " ++ capitalizeFirst baseStyle ++ " Design";
       description := "A personalized " ++ baseStyle ++ " kitchen designed specifically for your Calgary home, cooking style, and storage needs.";
       cabinetStyle := getCabinetStyle baseStyle primary;
       colorPalette := getColorPalette colorPref primary;
       keyFeatures := getKeyFeatures baseStyle storage cooking primary;
       timeline := "10-12 weeks";
       complexity := "high";
       whyThisWorks := "This design perfectly matches your " ++ baseStyle ++ " style preference while optimizing for your " ++ cooking ++ " cooking habits and " ++ storage ++ " storage needs. Perfect for Calgary's lifestyle.";
       layoutOptimization := getLayoutOptimization cooking storage primary;
       storageFeatures := primaryStorage |} in
  (* Enhanced premium design *)
  let* enhancedStorage := getStorageFeatures storage enhanced in
  let variations := push variations
    {| name := "Premium " ++ capitalizeFirst baseStyle ++ " Collection";
       description := "An elevated version of your preferred style with luxury features and enhanced functionality for the discerning Calgary homeowner.";
       cabinetStyle := getCabinetStyle baseStyle enhanced;
       colorPalette := getColorPalette colorPref enhanced;
       keyFeatures := getKeyFeatures baseStyle storage cooking enhanced;
       timeline := "12-14 weeks";
       complexity := "premium";
       whyThisWorks := "This premium design builds on your style preferences with luxury materials and advanced storage solutions for the ultimate Calgary kitchen experience.";
       layoutOptimization := getLayoutOptimization cooking storage enhanced;
       storageFeatures := enhancedStorage |} in
  (* Value-conscious alternative *)
  let* valueStorage := getStorageFeatures storage value in
  let variations := push variations
    {| name := "Smart " ++ capitalizeFirst baseStyle ++ " Value";
       description := "A cost-effective approach to your preferred style without compromising on Urban Woodspace quality or functionality.";
       cabinetStyle := getCabinetStyle baseStyle value;
       colorPalette := getColorPalette colorPref value;
       keyFeatures := getKeyFeatures baseStyle storage cooking value;
       timeline := "8-10 weeks";
       complexity := "standard";
       whyThisWorks := "This design delivers your desired " ++ baseStyle ++ " aesthetic with smart material choices and efficient layouts that maximize value for Calgary families.";
       layoutOptimization := getLayoutOptimization cooking storage value;
       storageFeatures := valueStorage |} in
  Normal variations.

(** ** Numbers of the cost estimator

    JavaScript numbers are binary64 floats.  [Math.round] yields an
    integral number, an infinity, a negative zero or NaN; that is what
    [toLocaleString] is applied to. *)

Module JsNumber.

Inductive Rounded : Type :=
| RNaN
| RInfinity (negative : bool)
| RNegativeZero
| RInteger (z : Z).

(** [Math.round(x)]: the integer nearest to [x], a tie going up. *)
Definition Math_round (x : float) : Rounded :=
  match Prim2SF x with
  | S754_nan => RNaN
  | S754_infinity s => RInfinity s
  | S754_zero s => if s then RNegativeZero else RInteger 0
  | S754_finite s m e =>
      let num := if s then Z.neg m else Z.pos m in
      let r := if (0 <=? e)%Z then (num * 2 ^ e)%Z
               else ((2 * num + 2 ^ (- e)) / 2 ^ (1 - e))%Z in
      if (r =? 0)%Z && s then RNegativeZero else RInteger r
  end.

Definition decimal (n : N) : string := NilEmpty.string_of_uint (N.to_uint n).

Definition reverse (s : string) : string :=
  string_of_list_ascii (rev (list_ascii_of_string s)).

(** A comma after every third digit, on the digits written backwards. *)
Fixpoint group_thousands (backwards : string) : string :=
  match backwards with
  | String a (String b (String c (String d more as rest))) =>
      String a (String b (String c (String "," (group_thousands rest))))
  | _ => backwards
  end.

(** [n.toLocaleString()] in the default locale of the deployment, en-US,
    which the formatted amounts of the specification show. *)
Definition toLocaleString (n : Rounded) : string :=
  match n with
  | RNaN => "NaN"
  | RInfinity s => if s then "-∞" else "∞"
  | RNegativeZero => "-0"
  | RInteger z =>
      let digits := reverse (group_thousands (reverse (decimal (Z.abs_N z)))) in
      if (z <? 0)%Z then "-" ++ digits else digits
  end.

(** A number is truthy when it is neither zero nor NaN. *)
Definition truthy_number (x : float) : bool :=
  negb (PrimFloat.eqb x 0%float) && negb (PrimFloat.is_nan x).

End JsNumber.

Import JsNumber.

(** ** The cost estimator *)

Record Bracket : Type := { min : float; max : float }.

Definition budgetMultipliers : list (string * Bracket) :=
  [ ("25k-40k", {| min := 25000; max := 40000 |});
    ("40k-60k", {| min := 40000; max := 60000 |});
    ("60k-80k", {| min := 60000; max := 80000 |});
    ("80k-100k", {| min := 80000; max := 100000 |});
    ("100k-plus", {| min := 100000; max := 150000 |}) ]%float.

Definition complexityMultipliers : list (string * float) :=
  [ ("standard", 0.85); ("high", 1.0); ("premium", 1.25) ]%float.

(** What [table[key] || fallback] evaluates to: a value of the table's
    kind, or the truthy member of [Object.prototype] the key named. *)
Inductive Operand (A : Type) : Type :=
| Data (a : A)
| Member (member : string).

Arguments Data {A} a.
Arguments Member {A} member.

Definition get_or {A : Type} (truthy : A -> bool) (table : list (string * A))
    (key : string) (fallback : A) : Operand A :=
  match get table key with
  | Own a => if truthy a then Data a else Data fallback
  | Inherited member => Member member
  | Absent => Data fallback
  end.

(** [budget.min] and [budget.max] as operands of [*]: a member of
    [Object.prototype] has neither property, and [undefined] converts
    to NaN. *)
Definition number_field (field : Bracket -> float) (budget : Operand Bracket) : float :=
  match budget with
  | Data b => field b
  | Member _ => PrimFloat.nan
  end.

(** [multiplier] as an operand of [*]: a member of [Object.prototype]
    converts to NaN. *)
Definition to_number (multiplier : Operand float) : float :=
  match multiplier with
  | Data m => m
  | Member _ => PrimFloat.nan
  end.

Definition calculateCost (budgetRange complexity : string) : string :=
  let budget :=
    get_or (fun _ => true) budgetMultipliers budgetRange
           {| min := 35000; max := 50000 |}%float in
  let multiplier := get_or truthy_number complexityMultipliers complexity 1.0%float in
  let minCost := Math_round (number_field min budget * to_number multiplier)%float in
  let maxCost := Math_round (number_field max budget * to_number multiplier)%float in
  "$" ++ toLocaleString minCost ++ " - $" ++ toLocaleString maxCost ++ " CAD".

(** ** The image-prompt composer *)

(** [features.slice(0, 3).join(", ")]: defined on an array; a string has
    [slice] but its result has no [join], and a member of
    [Object.prototype] has no [slice]. *)
Definition slice3_join (storageFeatures : Value) : Completion string :=
  match storageFeatures with
  | VArray items => Normal (join ", " (firstn 3 items))
  | VString _ => Throw "TypeError: design.storageFeatures.slice(...).join is not a function"
  | VPrototypeMember _ => Throw "TypeError: design.storageFeatures.slice is not a function"
  end.

Definition createImagePrompt (design : DesignVariation) (preferences : Preferences)
    (originalImageUrl : string) : Completion string :=
  let style := kitchenStyle preferences in
  let colorPref := colorPreference preferences in
  let cooking := cookingHabits preferences in
  let family := familySize preferences in
  let prompt := "A stunning, photorealistic 3D rendering of a " ++ style ++ " kitchen design for Urban Woodspace Calgary. " in
  (* Add style-specific details *)
  let prompt :=
    if style =? "contemporary" then
      prompt ++ "Clean lines, flat-panel cabinets, minimalist design with sleek hardware and modern appliances. "
    else if style =? "traditional" then
      prompt ++ "Classic raised-panel cabinets, elegant details, timeless design with traditional hardware and warm finishes. "
    else if style =? "transitional" then
      prompt ++ "Shaker-style cabinets blending traditional and modern elements with versatile hardware. "
    else if style =? "modern" then
      prompt ++ "Ultra-modern design with handleless cabinets, cutting-edge features, and minimalist aesthetics. "
    else if style =? "farmhouse" then
      prompt ++ "Rustic farmhouse charm with beadboard details, vintage-inspired elements, and cozy warmth. "
    else if style =? "scandinavian" then
      prompt ++ "Light wood tones, natural materials, bright and airy Scandinavian design with clean lines. "
    else if style =? "industrial" then
      prompt ++ "Industrial aesthetic with metal accents, urban design elements, and modern functionality. "
    else prompt in
  (* Add color palette *)
  let prompt := prompt ++ ("Color scheme: " ++ colorPalette design ++ ". ") in
  (* Add layout considerations *)
  let prompt :=
    if includes cooking "daily" || includes cooking "frequent" then
      prompt ++ "Efficient work triangle layout with multiple prep areas and professional-grade workflow. "
    else prompt in
  let prompt :=
    if includes cooking "entertainer" then
      prompt ++ "Open layout perfect for entertaining with large island and social cooking areas. "
    else prompt in
  (* Add family size considerations *)
  let prompt :=
    if includes family "large" then
      prompt ++ "Spacious design accommodating large family needs with ample storage and workspace. "
    else prompt in
  (* Add technical specifications *)
  let prompt := prompt ++ (cabinetStyle design ++ ". Premium quartz countertops, under-cabinet LED lighting, high-end stainless steel appliances. ") in
  (* Add storage features *)
  let* firstThree := slice3_join (storageFeatures design) in
  let prompt := prompt ++ ("Storage features: " ++ firstThree ++ ". ") in
  (* Add Calgary-specific elements *)
  let prompt := prompt ++ "Designed for Calgary homes with practical storage for winter gear and seasonal items. " in
  (* Add final quality specifications *)
  let prompt := prompt ++ "Professional architectural photography style, perfect natural lighting, 4K quality, hyperrealistic rendering. The kitchen should look like a high-end interior design magazine photo with perfect staging, warm lighting, and inviting atmosphere. Show the space as lived-in and welcoming for a Calgary family." in
  Normal prompt.

(** ** The generation loop of [POST] *)

(** An element of [designs]: an object literal, as the list of its
    properties in the order the source writes them. *)
Definition GeneratedDesign : Type := list (string * Value).

Record GenerationStats : Type := {
  imagesGenerated : nat;
  imagesFailed : nat
}.

(** What one call of [openai.images.generate] does: it raises, or it
    answers and [imageResponse.data[0]?.url] is a string or [undefined]. *)
Inductive SynthesisOutcome : Type :=
| Raises (error : string)
| Responds (url : option string).

(** The body of the [try] block for one variation: the design it pushes,
    or the error it raises. *)
Definition attempt (designVariation : DesignVariation) (preferences : Preferences)
    (imageUrl : string) (outcome : SynthesisOutcome) : Completion GeneratedDesign :=
  let* imagePrompt := createImagePrompt designVariation preferences imageUrl in
  let* generatedImageUrl :=
    match outcome with
    | Raises error => Throw error
    | Responds url => Normal url
    end in
  match generatedImageUrl with
  | Some url =>
      if truthy url then
        Normal
          [ ("styleName", VString (name designVariation));
            ("description", VString (description designVariation));
            ("cabinetStyle", VString (cabinetStyle designVariation));
            ("colorPalette", VString (colorPalette designVariation));
            ("keyFeatures", VArray (keyFeatures designVariation));
            ("estimatedCost",
             VString (calculateCost (budgetRange preferences) (complexity designVariation)));
            ("timeline", VString (timeline designVariation));
            ("whyThisWorks", VString (whyThisWorks designVariation));
            ("layoutOptimization", VArray (layoutOptimization designVariation));
            ("storageFeatures", storageFeatures designVariation);
            ("generatedImage", VString url);
            ("imagePrompt", VString imagePrompt);
            ("imageStatus", VString "success") ]
      else Throw "Error: No image URL returned"
  | None => Throw "Error: No image URL returned"
  end.

(** The design the [catch] block pushes. *)
Definition failed_design (designVariation : DesignVariation) (preferences : Preferences)
    : GeneratedDesign :=
  [ ("styleName", VString (name designVariation));
    ("description", VString (description designVariation));
    ("cabinetStyle", VString (cabinetStyle designVariation));
    ("colorPalette", VString (colorPalette designVariation));
    ("keyFeatures", VArray (keyFeatures designVariation));
    ("estimatedCost",
     VString (calculateCost (budgetRange preferences) (complexity designVariation)));
    ("timeline", VString (timeline designVariation));
    ("whyThisWorks", VString (whyThisWorks designVariation));
    ("layoutOptimization", VArray (layoutOptimization designVariation));
    ("storageFeatures", storageFeatures designVariation);
    ("imageStatus", VString "failed") ].

(** One iteration: [try { ... } catch (error) { ... }] on the state
    [(designs, stats)]. *)
Definition iteration (preferences : Preferences) (imageUrl : string)
    (state : list GeneratedDesign * GenerationStats)
    (designVariation : DesignVariation) (outcome : SynthesisOutcome)
    : list GeneratedDesign * GenerationStats :=
  let (designs, stats) := state in
  match attempt designVariation preferences imageUrl outcome with
  | Normal design =>
      (push designs design,
       {| imagesGenerated := S (imagesGenerated stats);
          imagesFailed := imagesFailed stats |})
  | Throw _ =>
      (push designs (failed_design designVariation preferences),
       {| imagesGenerated := imagesGenerated stats;
          imagesFailed := S (imagesFailed stats) |})
  end.

(** [for (const [index, designVariation] of designVariations.entries())];
    [synthesize index] is the outcome of the call made for the variation
    at [index], when the iteration gets to make it. *)
Fixpoint generate_loop (preferences : Preferences) (imageUrl : string)
    (synthesize : nat -> SynthesisOutcome) (index : nat)
    (designVariations : list DesignVariation)
    (state : list GeneratedDesign * GenerationStats)
    : list GeneratedDesign * GenerationStats :=
  match designVariations with
  | [] => state
  | designVariation :: rest =>
      generate_loop preferences imageUrl synthesize (S index) rest
        (iteration preferences imageUrl state designVariation (synthesize index))
  end.

Definition number_to_string (n : nat) : string :=
  NilEmpty.string_of_uint (Nat.to_uint n).

Inductive Response : Type :=
| Generated (designs : list GeneratedDesign) (stats : GenerationStats) (message : string)
| Failed (status : nat) (error : string).

(** The [generate] branch of [POST] from the call of
    [createDesignVariations] on; an error that leaves it reaches the
    outer [catch]. *)
Definition generate (preferences : Preferences) (imageUrl : string)
    (synthesize : nat -> SynthesisOutcome) : Response :=
  let outcome :=
    let* designVariations := createDesignVariations preferences in
    let designs := [] in
    let stats := {| imagesGenerated := 0; imagesFailed := 0 |} in
    Normal (generate_loop preferences imageUrl synthesize 0 designVariations (designs, stats)) in
  match outcome with
  | Normal (designs, stats) =>
      Generated designs stats
        ("Generated " ++ number_to_string (imagesGenerated stats)
           ++ " personalized kitchen designs for Urban Woodspace!")
  | Throw _ => Failed 500 "Failed to process request. Please try again."
  end.

(** ** The analysis extractors *)

Definition extractFromAnalysis (text type : string) : option string :=
  let lines := split_lines (toLowerCase text) in
  if type =? "dimensions" then
    let dimLine :=
      find (fun line =>
              includes line "dimension" ||
              includes line "size" ||
              includes line "feet" ||
              includes line "'" ||
              includes line "x") lines in
    match dimLine with
    | Some dimLine => if truthy dimLine then Some (trim dimLine) else None
    | None => None
    end
  else if type =? "layout" then
    let layoutLine :=
      find (fun line =>
              includes line "layout" ||
              includes line "galley" ||
              includes line "l-shaped" ||
              includes line "u-shaped" ||
              includes line "island") lines in
    match layoutLine with
    | Some layoutLine => if truthy layoutLine then Some (trim layoutLine) else None
    | None => None
    end
  else if type =? "lighting" then
    let lightLine :=
      find (fun line =>
              includes line "light" || includes line "window" || includes line "bright")
           lines in
    match lightLine with
    | Some lightLine => if truthy lightLine then Some (trim lightLine) else None
    | None => None
    end
  else None.

Definition extractFeatures (text : string) : list string :=
  let features := [] in
  let features :=
    if includes (toLowerCase text) "window"
    then push features "Natural lighting from windows" else features in
  let features :=
    if includes (toLowerCase text) "ceiling"
    then push features "Standard ceiling height" else features in
  let features :=
    if includes (toLowerCase text) "floor"
    then push features "Existing flooring" else features in
  let features :=
    if includes (toLowerCase text) "door"
    then push features "Door access points" else features in
  if (0 <? length features)%nat then features
  else [ "Natural lighting"; "Standard ceiling height"; "Existing flooring" ].

Definition extractChallenges (text : string) : list string :=
  let challenges := [] in
  let challenges :=
    if includes (toLowerCase text) "small" || includes (toLowerCase text) "limited"
    then push challenges "Limited space optimization" else challenges in
  let challenges :=
    if includes (toLowerCase text) "old" || includes (toLowerCase text) "dated"
    then push challenges "Outdated design elements" else challenges in
  let challenges :=
    if includes (toLowerCase text) "storage"
    then push challenges "Insufficient storage" else challenges in
  let challenges :=
    if includes (toLowerCase text) "light"
    then push challenges "Lighting improvements needed" else challenges in
  if (0 <? length challenges)%nat then challenges
  else [ "Space optimization needed"; "Storage improvements"; "Lighting updates" ].

Definition extractOpportunities (text : string) : list string :=
  [ "Maximize vertical storage with tall cabinets";
    "Improve workflow with optimized layout";
    "Add modern lighting solutions";
    "Create more counter workspace";
    "Enhance storage organization" ].

Definition extractArchitectural (text : string) : list string :=
  [ "Standard wall construction"; "Existing flooring"; "Window placement";
    "Door locations" ].

Definition extractRecommendedStyles (text : string) : list string :=
  let styles := [] in
  let textLower := toLowerCase text in
  let styles :=
    if includes textLower "modern" || includes textLower "contemporary"
    then push styles "Contemporary" else styles in
  let styles :=
    if includes textLower "traditional" || includes textLower "classic"
    then push styles "Traditional" else styles in
  let styles :=
    if includes textLower "transitional"
    then push styles "Transitional" else styles in
  let styles :=
    if includes textLower "farmhouse" || includes textLower "rustic"
    then push styles "Farmhouse" else styles in
  if (0 <? length styles)%nat then styles
  else [ "Contemporary"; "Traditional"; "Transitional" ].

Definition extractOptimization (text : string) : list string :=
  [ "Optimize work triangle efficiency";
    "Maximize storage capacity";
    "Improve traffic flow";
    "Enhance natural lighting" ].

Record SpaceAnalysis : Type := {
  roomDimensions : string;
  layoutType : string;
  existingFeatures : list string;
  challenges : list string;
  opportunities : list string;
  lightingSituation : string;
  architecturalElements : list string;
  recommendedStyles : list string;
  spaceOptimization : list string
}.

(** The [spaceAnalysis] object the [analyze] branch of [POST] assembles
    from the analysis text. *)
Definition spaceAnalysis (analysisText : string) : SpaceAnalysis :=
  {| roomDimensions :=
       or_else (extractFromAnalysis analysisText "dimensions")
               "Approximately 10' x 12' kitchen space";
     layoutType :=
       or_else (extractFromAnalysis analysisText "layout") "Standard kitchen layout";
     existingFeatures := extractFeatures analysisText;
     challenges := extractChallenges analysisText;
     opportunities := extractOpportunities analysisText;
     lightingSituation :=
       or_else (extractFromAnalysis analysisText "lighting") "Natural light from windows";
     architecturalElements := extractArchitectural analysisText;
     recommendedStyles := extractRecommendedStyles analysisText;
     spaceOptimization := extractOptimization analysisText |}.

(** ** The clauses of the prompt, named

    The texts [createImagePrompt] appends, in the order it appends them. *)

Definition base_sentence (style : string) : string :=
  "A stunning, photorealistic 3D rendering of a " ++ style ++ " kitchen design for Urban Woodspace Calgary. ".

(** The clause of the style that equals [style]; no text when none does. *)
Definition style_clause (style : string) : string :=
  if style =? "contemporary" then
    "Clean lines, flat-panel cabinets, minimalist design with sleek hardware and modern appliances. "
  else if style =? "traditional" then
    "Classic raised-panel cabinets, elegant details, timeless design with traditional hardware and warm finishes. "
  else if style =? "transitional" then
    "Shaker-style cabinets blending traditional and modern elements with versatile hardware. "
  else if style =? "modern" then
    "Ultra-modern design with handleless cabinets, cutting-edge features, and minimalist aesthetics. "
  else if style =? "farmhouse" then
    "Rustic farmhouse charm with beadboard details, vintage-inspired elements, and cozy warmth. "
  else if style =? "scandinavian" then
    "Light wood tones, natural materials, bright and airy Scandinavian design with clean lines. "
  else if style =? "industrial" then
    "Industrial aesthetic with metal accents, urban design elements, and modern functionality. "
  else "".

Definition color_clause (palette : string) : string :=
  "Color scheme: " ++ palette ++ ". ".

Definition cooking_clauses (cooking : string) : string :=
  (if includes cooking "daily" || includes cooking "frequent"
   then "Efficient work triangle layout with multiple prep areas and professional-grade workflow. "
   else "")
  ++
  (if includes cooking "entertainer"
   then "Open layout perfect for entertaining with large island and social cooking areas. "
   else "").

Definition family_clause (family : string) : string :=
  if includes family "large"
  then "Spacious design accommodating large family needs with ample storage and workspace. "
  else "".

Definition technical_clause (cabinet : string) : string :=
  cabinet ++ ". Premium quartz countertops, under-cabinet LED lighting, high-end stainless steel appliances. ".

Definition storage_clause (items : list string) : string :=
  "Storage features: " ++ join ", " (firstn 3 items) ++ ". ".

Definition calgary_clause : string :=
  "Designed for Calgary homes with practical storage for winter gear and seasonal items. ".

Definition closing_clause : string :=
  "Professional architectural photography style, perfect natural lighting, 4K quality, hyperrealistic rendering. The kitchen should look like a high-end interior design magazine photo with perfect staging, warm lighting, and inviting atmosphere. Show the space as lived-in and welcoming for a Calgary family.".

(** The prompt as the specification words it, with the eight clauses it
    lists: base sentence, style clause, colour clause, cooking clauses,
    family clause, technical clause, storage clause, closing quality
    clause. *)
Definition specified_prompt (design : DesignVariation) (preferences : Preferences)
    (items : list string) : string :=
  base_sentence (kitchenStyle preferences)
  ++ style_clause (kitchenStyle preferences)
  ++ color_clause (colorPalette design)
  ++ cooking_clauses (cookingHabits preferences)
  ++ family_clause (familySize preferences)
  ++ technical_clause (cabinetStyle design)
  ++ storage_clause items
  ++ closing_clause.

(** The same with the Calgary clause the source appends before the
    closing clause. *)
Definition composed_prompt (design : DesignVariation) (preferences : Preferences)
    (items : list string) : string :=
  base_sentence (kitchenStyle preferences)
  ++ style_clause (kitchenStyle preferences)
  ++ color_clause (colorPalette design)
  ++ cooking_clauses (cookingHabits preferences)
  ++ family_clause (familySize preferences)
  ++ technical_clause (cabinetStyle design)
  ++ storage_clause items
  ++ calgary_clause
  ++ closing_clause.

(** ** Vocabulary of the statements *)

(** A synthesis call fails when it raises or yields no usable URL. *)
Definition fails (outcome : SynthesisOutcome) : bool :=
  match outcome with
  | Raises _ => true
  | Responds None => true
  | Responds (Some url) => negb (truthy url)
  end.

Definition has_status (status : string) (design : GeneratedDesign) : bool :=
  match own_property design "imageStatus" with
  | Some (VString s) => s =? status
  | _ => false
  end.

(** The ten properties both kinds of design share. *)
Definition shared_fields (designVariation : DesignVariation) (preferences : Preferences)
    : list (string * Value) :=
  [ ("styleName", VString (name designVariation));
    ("description", VString (description designVariation));
    ("cabinetStyle", VString (cabinetStyle designVariation));
    ("colorPalette", VString (colorPalette designVariation));
    ("keyFeatures", VArray (keyFeatures designVariation));
    ("estimatedCost",
     VString (calculateCost (budgetRange preferences) (complexity designVariation)));
    ("timeline", VString (timeline designVariation));
    ("whyThisWorks", VString (whyThisWorks designVariation));
    ("layoutOptimization", VArray (layoutOptimization designVariation));
    ("storageFeatures", storageFeatures designVariation) ].

(** The design one iteration pushes for a variation and an outcome. *)
Definition pushed_design (preferences : Preferences) (imageUrl : string)
    (designVariation : DesignVariation) (outcome : SynthesisOutcome) : GeneratedDesign :=
  match attempt designVariation preferences imageUrl outcome with
  | Normal design => design
  | Throw _ => failed_design designVariation preferences
  end.

Definition is_array (v : Value) : bool :=
  match v with
  | VArray _ => true
  | _ => false
  end.

(** The keywords the extractors look for in the lower-cased text. *)
Definition recognized_keywords : list string :=
  [ "dimension"; "size"; "feet"; "'"; "x";
    "layout"; "galley"; "l-shaped"; "u-shaped"; "island";
    "light"; "window"; "bright";
    "ceiling"; "floor"; "door";
    "small"; "limited"; "old"; "dated"; "storage";
    "modern"; "contemporary"; "traditional"; "classic"; "transitional";
    "farmhouse"; "rustic" ].

Definition no_keyword (text : string) : Prop :=
  forall k, In k recognized_keywords -> includes (toLowerCase text) k = false.

(** The estimate as the specification words it, in integers: the
    bracket of a range (the default one for an unknown range) and the
    multiplier of a complexity in hundredths (100 for an unknown one). *)
Definition bracket_of (budgetRange : string) : Z * Z :=
  if budgetRange =? "25k-40k" then (25000%Z, 40000%Z)
  else if budgetRange =? "40k-60k" then (40000%Z, 60000%Z)
  else if budgetRange =? "60k-80k" then (60000%Z, 80000%Z)
  else if budgetRange =? "80k-100k" then (80000%Z, 100000%Z)
  else if budgetRange =? "100k-plus" then (100000%Z, 150000%Z)
  else (35000%Z, 50000%Z).

Definition percent_of (complexity : string) : Z :=
  if complexity =? "standard" then 85%Z
  else if complexity =? "high" then 100%Z
  else if complexity =? "premium" then 125%Z
  else 100%Z.

(** [amount * percent / 100] rounded to the nearest integer, a tie going up. *)
Definition scaled (amount percent : Z) : Z :=
  ((2 * amount * percent + 100) / 200)%Z.

Definition formatted_range (low high : Z) : string :=
  "$" ++ toLocaleString (RInteger low) ++ " - $" ++ toLocaleString (RInteger high) ++ " CAD".

(** Whether the [try] block of an iteration runs to its end. *)
Definition succeeds (preferences : Preferences) (imageUrl : string)
    (designVariation : DesignVariation) (outcome : SynthesisOutcome) : bool :=
  match attempt designVariation preferences imageUrl outcome with
  | Normal _ => true
  | Throw _ => false
  end.

(** The properties a pushed design has after the ten shared ones. *)
Definition success_fields (url prompt : string) : list (string * Value) :=
  [ ("generatedImage", VString url);
    ("imagePrompt", VString prompt);
    ("imageStatus", VString "success") ].

Definition failure_fields : list (string * Value) :=
  [ ("imageStatus", VString "failed") ].

(** The designs pushed for the variations from [index] on. *)
Fixpoint pushed_designs (preferences : Preferences) (imageUrl : string)
    (synthesize : nat -> SynthesisOutcome) (index : nat)
    (designVariations : list DesignVariation) : list GeneratedDesign :=
  match designVariations with
  | [] => []
  | designVariation :: rest =>
      pushed_design preferences imageUrl designVariation (synthesize index)
      :: pushed_designs preferences imageUrl synthesize (S index) rest
  end.

(** How many of those iterations run their [try] block to its end. *)
Fixpoint successes (preferences : Preferences) (imageUrl : string)
    (synthesize : nat -> SynthesisOutcome) (index : nat)
    (designVariations : list DesignVariation) : nat :=
  match designVariations with
  | [] => 0
  | designVariation :: rest =>
      (if succeeds preferences imageUrl designVariation (synthesize index) then 1 else 0)
      + successes preferences imageUrl synthesize (S index) rest
  end.

(** The analysis of a text in which nothing is recognized. *)
Definition default_analysis : SpaceAnalysis :=
  {| roomDimensions := "Approximately 10' x 12' kitchen space";
     layoutType := "Standard kitchen layout";
     existingFeatures :=
       [ "Natural lighting"; "Standard ceiling height"; "Existing flooring" ];
     challenges :=
       [ "Space optimization needed"; "Storage improvements"; "Lighting updates" ];
     opportunities :=
       [ "Maximize vertical storage with tall cabinets";
         "Improve workflow with optimized layout";
         "Add modern lighting solutions";
         "Create more counter workspace";
         "Enhance storage organization" ];
     lightingSituation := "Natural light from windows";
     architecturalElements :=
       [ "Standard wall construction"; "Existing flooring"; "Window placement";
         "Door locations" ];
     recommendedStyles := [ "Contemporary"; "Traditional"; "Transitional" ];
     spaceOptimization :=
       [ "Optimize work triangle efficiency";
         "Maximize storage capacity";
         "Improve traffic flow";
         "Enhance natural lighting" ] |}.

(** No field is an empty string or an empty list. *)
Definition populated (a : SpaceAnalysis) : Prop :=
  roomDimensions a <> ""
  /\ layoutType a <> ""
  /\ existingFeatures a <> []
  /\ challenges a <> []
  /\ opportunities a <> []
  /\ lightingSituation a <> ""
  /\ architecturalElements a <> []
  /\ recommendedStyles a <> []
  /\ spaceOptimization a <> [].

Definition shared_keys : list string :=
  [ "styleName"; "description"; "cabinetStyle"; "colorPalette"; "keyFeatures";
    "estimatedCost"; "timeline"; "whyThisWorks"; "layoutOptimization";
    "storageFeatures" ].

(** ** Sample inputs *)

Definition sample_preferences : Preferences :=
  {| kitchenStyle := "modern";
     colorPreference := "two-tone";
     budgetRange := "60k-80k";
     storageNeeds := "hidden-storage";
     cookingHabits := "daily-cook";
     familySize := "large-family" |}.

(** The second of three calls raises; the others answer with a URL. *)
Definition sample_synthesize (index : nat) : SynthesisOutcome :=
  match index with
  | 1 => Raises "Error: 429 rate limit"
  | _ => Responds (Some "https://images.example/kitchen.png")
  end.

(** The designs of the run on the samples. *)
Definition sample_designs : list GeneratedDesign :=
  match generate sample_preferences "data:image/png;base64,AAAA" sample_synthesize with
  | Generated designs _ _ => designs
  | Failed _ _ => []
  end.

Definition sample_variation : DesignVariation :=
  {| name := "Custom Modern Design";
     description := "A personalized modern kitchen.";
     cabinetStyle := "Ultra-flat doors with minimal linear hardware";
     colorPalette := "White uppers with gray lowers and coordinated hardware";
     keyFeatures := at_tier baseFeatures primary;
     timeline := "10-12 weeks";
     complexity := "high";
     whyThisWorks := "It matches the modern style.";
     layoutOptimization := ["Improved workflow efficiency"];
     storageFeatures :=
       VArray ["Pull-out drawers"; "Spice racks"; "Corner units"; "Wine storage";
               "Pantry shelves"] |}.

(** ** The HTTP layer of the route *)

Definition ALLOWED_ORIGINS : list string :=
  [ "https://urbanwoodspace.com";
    "https://www.urbanwoodspace.com";
    "http://localhost:3000" ].

(** [list.includes(x)] on an array of strings. *)
Definition array_includes (list : list string) (x : string) : bool :=
  existsb (String.eqb x) list.

(** [request.headers.get("origin")] is a string or [null]; [origin && ...]
    is falsy for [null] and for the empty string. *)
Definition corsHeaders (origin : option string) : list (string * string) :=
  let isAllowed :=
    match origin with
    | Some o => truthy o && array_includes ALLOWED_ORIGINS o
    | None => false
    end in
  [ ("Access-Control-Allow-Origin",
     match origin with
     | Some o => if isAllowed then o else hd "" ALLOWED_ORIGINS
     | None => hd "" ALLOWED_ORIGINS
     end);
    ("Access-Control-Allow-Methods", "POST, OPTIONS");
    ("Access-Control-Allow-Headers", "Content-Type, Authorization");
    ("Access-Control-Max-Age", "86400") ].

(** The uploaded image: its length in bytes, its media type, and its
    bytes as [Buffer.from(bytes).toString("base64")] writes them. *)
Record UploadedFile : Type := {
  size : N;
  type : string;
  base64 : string
}.

(** [formData.get("image")]: [null] for a missing field, a string for a
    text field, a file for an uploaded one. *)
Inductive ImageField : Type :=
| ImageMissing
| ImageText (text : string)
| ImageFile (file : UploadedFile).

(** The [contact] field, as far as the route depends on it: parsing and
    logging it (lines 166 to 171) either raises, which it does for a text
    that is not JSON, for [null], and for a [name] without a string
    conversion, or completes. *)
Inductive ContactField : Type :=
| ContactRaises
| ContactLogged.

(** What the rest of the [generate] branch does for preferences that
    are not six strings: it raises, or it answers with designs, counters
    and a message.  That run is not embedded. *)
Inductive UntypedRun : Type :=
| RunRaises
| RunAnswers (designs : list GeneratedDesign) (stats : GenerationStats)
    (message : string).

(** The [preferences] field after [JSON.parse]: the parse raises or
    yields [null] (reading [preferences.kitchenStyle] then raises); it
    yields an object whose six fields are strings; or it yields another
    value (a field is missing or is not a string), for which the run of
    the branch, by what the synthesis calls do, is given with the field. *)
Inductive PreferencesField : Type :=
| PreferencesRaise
| PreferencesTyped (preferences : Preferences)
| PreferencesUntyped (run : (nat -> SynthesisOutcome) -> UntypedRun).

(** The form fields [POST] reads.  [form_action] is
    [formData.get("action")] when that is a string, [None] when the field
    is missing or is a file. *)
Record FormData : Type := {
  form_image : ImageField;
  form_action : option string;
  form_preferences : PreferencesField;
  form_contact : ContactField
}.

(** A request: the two headers the route reads and the body as
    [request.formData()] decodes it, [None] when decoding raises. *)
Record Request : Type := {
  origin : option string;
  x_forwarded_for : option string;
  form : option FormData
}.

Record RateLimit : Type := {
  allowed : bool;
  remaining : option nat
}.

(** The limiter computes a key and a window and then allows the request. *)
Definition checkRateLimit (request : Request) : RateLimit :=
  let ip := match x_forwarded_for request with
            | Some a => if truthy a then a else "unknown"
            | None => "unknown"
            end in
  let windowMs := (60 * 60 * 1000)%N in
  let maxRequests := 10%N in
  {| allowed := true; remaining := None |}.

(** What the vision call does: it raises, or it answers and
    [analysisResponse.choices[0]?.message?.content] is a string or
    [undefined]. *)
Inductive VisionOutcome : Type :=
| VisionRaises (error : string)
| VisionResponds (content : option string).

(** The JSON bodies of the responses. *)
Inductive Body : Type :=
| NoBody
| ErrorBody (error : string)
| AnalysisBody (analysis : SpaceAnalysis) (originalAnalysis : string)
| DesignsBody (designs : list GeneratedDesign) (stats : GenerationStats)
    (message : string).

(** The [success] property of a body. *)
Definition success (body : Body) : bool :=
  match body with
  | AnalysisBody _ _ => true
  | DesignsBody _ _ _ => true
  | _ => false
  end.

Record HttpResponse : Type := {
  status : nat;
  headers : list (string * string);
  body : Body
}.

(** [a === s] for a form field [a], a string or [null]. *)
Definition strictly_equals (a : option string) (s : string) : bool :=
  match a with
  | Some x => x =? s
  | None => false
  end.

Definition OPTIONS (request : Request) : HttpResponse :=
  {| status := 200; headers := corsHeaders (origin request); body := NoBody |}.

(** [POST]: the checks in the order of the source, then the branch of the
    action; an error raised on the way reaches the outer [catch].
    [OPENAI_API_KEY] is [process.env.OPENAI_API_KEY]; [vision] and
    [synthesize] are what the two capabilities do when called. *)
Definition POST (OPENAI_API_KEY : option string) (request : Request)
    (vision : VisionOutcome) (synthesize : nat -> SynthesisOutcome) : HttpResponse :=
  let headers := corsHeaders (origin request) in
  let json (status : nat) (body : Body) : HttpResponse :=
    {| status := status; headers := headers; body := body |} in
  let tried : Completion HttpResponse :=
    let rateLimitResult := checkRateLimit request in
    if negb (allowed rateLimitResult) then
      Normal (json 429 (ErrorBody "Rate limit exceeded. Please try again later."))
    else
      let* formData :=
        match form request with
        | Some formData => Normal formData
        | None => Throw "TypeError: request body is not form data"
        end in
      let action := form_action formData in
      match form_image formData with
      | ImageMissing => Normal (json 400 (ErrorBody "No image provided"))
      | ImageText text =>
          (* a string has neither [size] nor [type]: an empty one is falsy,
             another passes the size check and raises at [startsWith] *)
          if negb (truthy text)
          then Normal (json 400 (ErrorBody "No image provided"))
          else if negb (match OPENAI_API_KEY with Some key => truthy key | None => false end)
          then Normal (json 500 (ErrorBody "AI service temporarily unavailable"))
          else Throw "TypeError: image.type is undefined"
      | ImageFile image =>
          if negb (match OPENAI_API_KEY with Some key => truthy key | None => false end)
          then Normal (json 500 (ErrorBody "AI service temporarily unavailable"))
          else if (20 * 1024 * 1024 <? size image)%N
          then Normal (json 400 (ErrorBody "Image too large. Please use an image under 20MB."))
          else if negb (startsWith (type image) "image/")
          then Normal (json 400 (ErrorBody "Please upload a valid image file."))
          else
            let imageUrl := "data:" ++ type image ++ ";base64," ++ base64 image in
            if strictly_equals action "analyze" then
                let* content :=
                  match vision with
                  | VisionRaises error => Throw error
                  | VisionResponds content => Normal content
                  end in
                let analysisText := or_else content "Analysis not available" in
                Normal (json 200 (AnalysisBody (spaceAnalysis analysisText) analysisText))
            else if strictly_equals action "generate" then
                let* preferences :=
                  match form_preferences formData with
                  | PreferencesRaise => Throw "preferences: the parse raises or yields null"
                  | parsed => Normal parsed
                  end in
                let* contact :=
                  match form_contact formData with
                  | ContactRaises => Throw "contact: parsing or logging it raises"
                  | ContactLogged => Normal ContactLogged
                  end in
                match preferences with
                | PreferencesTyped preferences =>
                    match generate preferences imageUrl synthesize with
                    | Generated designs stats message =>
                        Normal (json 200 (DesignsBody designs stats message))
                    | Failed _ error => Throw error
                    end
                | PreferencesUntyped run =>
                    match run synthesize with
                    | RunAnswers designs stats message =>
                        Normal (json 200 (DesignsBody designs stats message))
                    | RunRaises => Throw "the branch raises"
                    end
                | PreferencesRaise => Throw "preferences: the parse raises or yields null"
                end
            else Normal (json 400 (ErrorBody "Invalid action"))
      end in
  match tried with
  | Normal response => response
  | Throw _ => json 500 (ErrorBody "Failed to process request. Please try again.")
  end.

(** ** Vocabulary of the further statements *)

(** The upload passes the checks that precede the action: an image file
    is there, the key is set, the image has at most 20 MiB and an image
    media type. *)
Definition upload_ok (OPENAI_API_KEY : option string) (request : Request) : bool :=
  match form request with
  | Some formData =>
      match form_image formData with
      | ImageFile image =>
          match OPENAI_API_KEY with Some key => truthy key | None => false end
          && (size image <=? 20971520)%N
          && startsWith (type image) "image/"
      | _ => false
      end
  | None => false
  end.

Definition action_of (request : Request) : option string :=
  match form request with
  | Some formData => form_action formData
  | None => None
  end.

Definition preferences_of (request : Request) : option PreferencesField :=
  match form request with
  | Some formData => Some (form_preferences formData)
  | None => None
  end.

Definition contact_of (request : Request) : option ContactField :=
  match form request with
  | Some formData => Some (form_contact formData)
  | None => None
  end.

Definition generic_failure (request : Request) : HttpResponse :=
  {| status := 500;
     headers := corsHeaders (origin request);
     body := ErrorBody "Failed to process request. Please try again." |}.

Definition sample_image : UploadedFile :=
  {| size := 20971520; type := "image/jpeg"; base64 := "/9j/4AAQSkZJRg==" |}.

Definition sample_request (action : string) : Request :=
  {| origin := Some "https://www.urbanwoodspace.com";
     x_forwarded_for := None;
     form := Some {| form_image := ImageFile sample_image;
                     form_action := Some action;
                     form_preferences := PreferencesTyped sample_preferences;
                     form_contact := ContactLogged |} |}.

(** The keywords [extractFromAnalysis] looks for in a line, by type. *)
Definition line_keywords (type : string) : list string :=
  if type =? "dimensions" then [ "dimension"; "size"; "feet"; "'"; "x" ]
  else if type =? "layout" then [ "layout"; "galley"; "l-shaped"; "u-shaped"; "island" ]
  else if type =? "lighting" then [ "light"; "window"; "bright" ]
  else [].

Fixpoint all_chars (p : ascii -> bool) (s : string) : bool :=
  match s with
  | EmptyString => true
  | String c s' => p c && all_chars p s'
  end.

(** Every character is in ASCII. *)
Definition is_ascii (s : string) : bool :=
  all_chars (fun c => (nat_of_ascii c <? 128)%nat) s.

(** A non-empty word without white space. *)
Definition word (k : string) : bool :=
  negb (k =? "") && all_chars (fun c => negb (is_space c)) k.

(** The line includes one of the keywords. *)
Definition mentions (line : string) (keywords : list string) : bool :=
  existsb (includes line) keywords.

(** No list of the analysis has a repeated item or more than four. *)
Definition tidy (items : list string) : Prop :=
  items <> [] /\ length items <= 4 /\ NoDup items.

(** The request with another image in its form. *)
Definition with_image (request : Request) (image : UploadedFile) : Request :=
  {| origin := origin request;
     x_forwarded_for := x_forwarded_for request;
     form := match form request with
             | Some formData =>
                 Some {| form_image := ImageFile image;
                         form_action := form_action formData;
                         form_preferences := form_preferences formData;
                         form_contact := form_contact formData |}
             | None => None
             end |}.

Definition generated_message (count : nat) : string :=
  "Generated " ++ number_to_string count
    ++ " personalized kitchen designs for Urban Woodspace!".

(** The three calls fail. *)
Definition failing_synthesize (index : nat) : SynthesisOutcome :=
  match index with
  | 0 => Raises "Error: 500 server error"
  | 1 => Responds None
  | _ => Responds (Some "")
  end.

(** An upload of one byte more than 20 MiB. *)
Definition oversized_request : Request :=
  {| origin := None;
     x_forwarded_for := None;
     form := Some {| form_image := ImageFile {| size := 20971521; type := "image/png";
                                                base64 := "iVBORw0KGgo=" |};
                     form_action := Some "analyze";
                     form_preferences := PreferencesRaise;
                     form_contact := ContactRaises |} |}.

(** A request whose storage need names a member of [Object.prototype]. *)
Definition prototype_request : Request :=
  {| origin := Some "https://urbanwoodspace.com";
     x_forwarded_for := Some "203.0.113.7";
     form := Some {| form_image := ImageFile sample_image;
                     form_action := Some "generate";
                     form_preferences :=
                       PreferencesTyped
                         {| kitchenStyle := "modern";
                            colorPreference := "two-tone";
                            budgetRange := "60k-80k";
                            storageNeeds := "toString";
                            cookingHabits := "daily-cook";
                            familySize := "large-family" |};
                     form_contact := ContactLogged |} |}.

(** The sample request with other [preferences] and [contact] fields. *)
Definition generate_request (preferences : PreferencesField) (contact : ContactField)
    : Request :=
  {| origin := Some "https://www.urbanwoodspace.com";
     x_forwarded_for := None;
     form := Some {| form_image := ImageFile sample_image;
                     form_action := Some "generate";
                     form_preferences := preferences;
                     form_contact := contact |} |}.

(** * Properties *)

(** ** Strings *)

Section StringFacts.

Lemma append_assoc_r (a b c : string) : (a ++ b) ++ c = a ++ (b ++ c).
Proof. induction a as [|x a IH]; simpl; [reflexivity | now rewrite IH]. Qed.

Lemma append_empty_r (a : string) : a ++ "" = a.
Proof. induction a as [|x a IH]; simpl; [reflexivity | now rewrite IH]. Qed.

Lemma startsWith_append (k rest : string) : startsWith (k ++ rest) k = true.
Proof.
  induction k as [|c k IH]; simpl; [reflexivity|].
  now rewrite Ascii.eqb_refl, IH.
Qed.

Lemma startsWith_inv (s k : string) :
  startsWith s k = true -> exists rest, s = k ++ rest.
Proof.
  revert s; induction k as [|c k IH]; intros s H.
  - now exists s.
  - destruct s as [|d s]; simpl in H; [discriminate|].
    apply andb_true_iff in H as [Hc Hk].
    apply Ascii.eqb_eq in Hc; subst d.
    destruct (IH _ Hk) as [rest ->].
    now exists rest.
Qed.

Lemma includes_unfold (s k : string) :
  includes s k =
  startsWith s k || match s with "" => false | String _ s' => includes s' k end.
Proof. destruct s; reflexivity. Qed.

Lemma includes_intro (before k after : string) :
  includes (before ++ k ++ after) k = true.
Proof.
  induction before as [|c before IH].
  - cbn [append]. rewrite includes_unfold, startsWith_append. reflexivity.
  - cbn [append]. rewrite includes_unfold, IH. apply orb_true_r.
Qed.

Lemma includes_inv (s k : string) :
  includes s k = true -> exists before after, s = before ++ k ++ after.
Proof.
  induction s as [|c s IH]; rewrite includes_unfold; intros H;
    apply orb_true_iff in H as [H|H].
  - destruct (startsWith_inv _ _ H) as [rest E]. now exists "", rest.
  - discriminate.
  - destruct (startsWith_inv _ _ H) as [rest E]. now exists "", rest.
  - destruct (IH H) as (before & after & ->). now exists (String c before), after.
Qed.

(** A substring of a substring is a substring. *)
Lemma includes_within (before inner after k : string) :
  includes inner k = true -> includes (before ++ inner ++ after) k = true.
Proof.
  intros H. destruct (includes_inv _ _ H) as (b & a & ->).
  replace (before ++ (b ++ k ++ a) ++ after) with ((before ++ b) ++ k ++ (a ++ after)).
  - apply includes_intro.
  - now rewrite !append_assoc_r.
Qed.

Lemma split_lines_head (s line : string) (others : list string) :
  split_lines s = line :: others -> exists after, s = line ++ after.
Proof.
  revert line others; induction s as [|c s IH]; intros line others H; simpl in H.
  - injection H as <- _. now exists "".
  - destruct (Ascii.eqb c newline).
    + injection H as <- _. now exists (String c s).
    + destruct (split_lines s) as [|l ls] eqn:E.
      * injection H as <- _. destruct s; simpl in E; [discriminate|].
        destruct (Ascii.eqb _ _); [discriminate|].
        destruct (split_lines s); discriminate.
      * injection H as <- _. destruct (IH _ _ eq_refl) as [after ->].
        now exists after.
Qed.

Lemma split_lines_within (s line : string) :
  In line (split_lines s) -> exists before after, s = before ++ line ++ after.
Proof.
  revert line; induction s as [|c s IH]; intros line H; simpl in H.
  - destruct H as [<-|[]]. now exists "", "".
  - destruct (Ascii.eqb c newline).
    + destruct H as [<-|H].
      * now exists "", (String c s).
      * destruct (IH _ H) as (before & after & ->).
        now exists (String c before), after.
    + destruct (split_lines s) as [|l ls] eqn:E.
      * destruct H as [<-|[]]. exists "", s. reflexivity.
      * destruct H as [<-|H].
        -- destruct (split_lines_head _ _ _ E) as [after ->].
           now exists "", after.
        -- destruct (IH line (or_intror H)) as (before & after & ->).
           now exists (String c before), after.
Qed.

(** What a line includes, the text includes. *)
Lemma includes_line (s line k : string) :
  In line (split_lines s) -> includes line k = true -> includes s k = true.
Proof.
  intros Hin Hk. destruct (split_lines_within _ _ Hin) as (before & after & ->).
  now apply includes_within.
Qed.

End StringFacts.

Section PromptFacts.

Lemma append_if (b : bool) (p x : string) :
  (if b then p ++ x else p) = p ++ (if b then x else "").
Proof. destruct b; [reflexivity | now rewrite append_empty_r]. Qed.

Lemma append_if_chain (p x1 x2 x3 x4 x5 x6 x7 : string) (c1 c2 c3 c4 c5 c6 c7 : bool) :
  (if c1 then p ++ x1 else if c2 then p ++ x2 else if c3 then p ++ x3
   else if c4 then p ++ x4 else if c5 then p ++ x5 else if c6 then p ++ x6
   else if c7 then p ++ x7 else p)
  = p ++ (if c1 then x1 else if c2 then x2 else if c3 then x3
          else if c4 then x4 else if c5 then x5 else if c6 then x6
          else if c7 then x7 else "").
Proof.
  destruct c1, c2, c3, c4, c5, c6, c7; try reflexivity.
  now rewrite append_empty_r.
Qed.

(** The sequence of [prompt +=] statements builds the clauses in order. *)
Lemma createImagePrompt_composed (design : DesignVariation) (preferences : Preferences)
    (originalImageUrl : string) (items : list string) :
  storageFeatures design = VArray items ->
  createImagePrompt design preferences originalImageUrl
  = Normal (composed_prompt design preferences items).
Proof.
  intros Hitems.
  unfold createImagePrompt, composed_prompt, base_sentence, style_clause,
    color_clause, cooking_clauses, family_clause, technical_clause,
    storage_clause, calgary_clause, closing_clause.
  rewrite Hitems. cbn [slice3_join bind]. cbv zeta.
  f_equal.
  rewrite append_if_chain, !append_if.
  now rewrite !append_assoc_r.
Qed.

End PromptFacts.

(** ** Lookups *)

Section LookupFacts.

Context {A : Type}.

Lemma own_property_absent (o : list (string * A)) (k : string) :
  ~ In k (keys o) -> own_property o k = None.
Proof.
  induction o as [|[k' a] o IH]; intros H; simpl; [reflexivity|].
  destruct (String.eqb_spec k k') as [->|_].
  - exfalso. apply H. now left.
  - apply IH. intros Hin. apply H. now right.
Qed.

Lemma own_property_present (o : list (string * A)) (k : string) (a : A) :
  own_property o k = Some a -> In k (keys o).
Proof.
  induction o as [|[k' a'] o IH]; simpl; [discriminate|].
  destruct (String.eqb_spec k k') as [->|_]; [now left | intros H; right; auto].
Qed.

Lemma get_absent (o : list (string * A)) (k : string) :
  ~ In k (keys o) -> inherited k = false -> get o k = Absent.
Proof.
  intros Hk Hi. unfold get. now rewrite own_property_absent, Hi.
Qed.

Lemma get_not_own (o : list (string * A)) (k : string) :
  ~ In k (keys o) -> get o k = Absent \/ get o k = Inherited k.
Proof.
  intros Hk. unfold get. rewrite own_property_absent by assumption.
  destruct (inherited k); auto.
Qed.

End LookupFacts.

(** ** The variation builder *)

Section BuilderFacts.

Lemma tier_entry_not_own (table : list (string * PerTier string)) (key : string)
    (tier : Tier) :
  ~ In key (keys table) -> tier_entry table key tier = None.
Proof.
  intros H. unfold tier_entry.
  destruct (get_not_own table key H) as [-> | ->]; reflexivity.
Qed.

(** No table of the source names a member of [Object.prototype]. *)
Lemma features_keys_not_inherited (storage : string) :
  In storage (keys features) -> inherited storage = false.
Proof.
  cbn [keys features map fst]. intros H.
  repeat (destruct H as [<- | H]; [reflexivity|]). destruct H.
Qed.

Lemma getStorageFeatures_array (storage : string) (tier : Tier) :
  inherited storage = false ->
  exists items, getStorageFeatures storage tier = Normal (VArray items).
Proof.
  intros Hi. unfold getStorageFeatures, get. rewrite Hi.
  destruct (own_property features storage); destruct tier; eauto.
Qed.

Lemma getStorageFeatures_inherited (storage : string) :
  inherited storage = true ->
  getStorageFeatures storage primary = Normal (VPrototypeMember storage)
  /\ getStorageFeatures storage enhanced = Throw "TypeError: baseFeatures is not iterable"
  /\ getStorageFeatures storage value = Normal (VPrototypeMember storage).
Proof.
  intros Hi. unfold getStorageFeatures, get.
  destruct (own_property features storage) eqn:E.
  - apply own_property_present, features_keys_not_inherited in E. congruence.
  - rewrite Hi. auto.
Qed.

Lemma createDesignVariations_built (preferences : Preferences) :
  inherited (storageNeeds preferences) = false ->
  exists v1 v2 v3 s1 s2 s3,
    createDesignVariations preferences = Normal [v1; v2; v3]
    /\ storageFeatures v1 = VArray s1
    /\ storageFeatures v2 = VArray s2
    /\ storageFeatures v3 = VArray s3
    /\ getStorageFeatures (storageNeeds preferences) primary = Normal (VArray s1)
    /\ getStorageFeatures (storageNeeds preferences) enhanced = Normal (VArray s2)
    /\ getStorageFeatures (storageNeeds preferences) value = Normal (VArray s3)
    /\ map complexity [v1; v2; v3] = ["high"; "premium"; "standard"]
    /\ map timeline [v1; v2; v3] = ["10-12 weeks"; "12-14 weeks"; "8-10 weeks"]
    /\ map cabinetStyle [v1; v2; v3]
       = map (getCabinetStyle (kitchenStyle preferences)) [primary; enhanced; value]
    /\ map colorPalette [v1; v2; v3]
       = map (getColorPalette (colorPreference preferences)) [primary; enhanced; value]
    /\ map keyFeatures [v1; v2; v3] = map (at_tier baseFeatures) [primary; enhanced; value].
Proof.
  intros Hi.
  destruct (getStorageFeatures_array _ primary Hi) as [s1 E1].
  destruct (getStorageFeatures_array _ enhanced Hi) as [s2 E2].
  destruct (getStorageFeatures_array _ value Hi) as [s3 E3].
  unfold createDesignVariations. cbv zeta.
  rewrite E1, E2, E3. cbn [bind push app].
  do 3 eexists. exists s1, s2, s3.
  split; [reflexivity|]. repeat split; reflexivity.
Qed.

Lemma createDesignVariations_raises (preferences : Preferences) :
  inherited (storageNeeds preferences) = true ->
  createDesignVariations preferences = Throw "TypeError: baseFeatures is not iterable".
Proof.
  intros Hi. destruct (getStorageFeatures_inherited _ Hi) as (E1 & E2 & _).
  unfold createDesignVariations. cbv zeta. rewrite E1, E2. reflexivity.
Qed.

Lemma createDesignVariations_arrays (preferences : Preferences)
    (variations : list DesignVariation) :
  createDesignVariations preferences = Normal variations ->
  length variations = 3
  /\ Forall (fun v => is_array (storageFeatures v) = true) variations.
Proof.
  intros H. destruct (inherited (storageNeeds preferences)) eqn:Hi.
  - rewrite (createDesignVariations_raises _ Hi) in H. discriminate.
  - destruct (createDesignVariations_built _ Hi)
      as (v1 & v2 & v3 & s1 & s2 & s3 & E & H1 & H2 & H3 & _).
    rewrite E in H. injection H as <-. split; [reflexivity|].
    repeat constructor; [rewrite H1 | rewrite H2 | rewrite H3]; reflexivity.
Qed.

End BuilderFacts.

(** ** The cost estimator *)

Section CostFacts.

(** Away from the inherited names the estimate is the bracket scaled by
    the multiplier, in integers. *)
Lemma calculateCost_scaled (budgetRange complexity : string) :
  inherited budgetRange = false ->
  inherited complexity = false ->
  calculateCost budgetRange complexity
  = formatted_range (scaled (fst (bracket_of budgetRange)) (percent_of complexity))
                    (scaled (snd (bracket_of budgetRange)) (percent_of complexity)).
Proof.
  intros Hb Hc.
  unfold calculateCost, get_or, get, bracket_of, percent_of,
    budgetMultipliers, complexityMultipliers.
  cbn [own_property]. rewrite Hb, Hc.
  destruct (budgetRange =? "25k-40k");
  [| destruct (budgetRange =? "40k-60k");
  [| destruct (budgetRange =? "60k-80k");
  [| destruct (budgetRange =? "80k-100k");
  [| destruct (budgetRange =? "100k-plus") ]]]];
  (destruct (complexity =? "standard");
   [| destruct (complexity =? "high");
   [| destruct (complexity =? "premium") ]]);
  vm_compute; reflexivity.
Qed.

Lemma calculateCost_inherited_budget (budgetRange complexity : string) :
  inherited budgetRange = true ->
  calculateCost budgetRange complexity = "$NaN - $NaN CAD".
Proof.
  intros Hb. unfold calculateCost, get_or, get.
  destruct (own_property budgetMultipliers budgetRange) eqn:E.
  - apply own_property_present in E. cbn [keys budgetMultipliers map fst] in E.
    repeat (destruct E as [<- | E]; [discriminate Hb|]). destruct E.
  - rewrite Hb. unfold complexityMultipliers. cbn [own_property number_field].
    destruct (complexity =? "standard");
    [| destruct (complexity =? "high");
    [| destruct (complexity =? "premium");
    [| destruct (inherited complexity) ]]];
    vm_compute; reflexivity.
Qed.

End CostFacts.

(** ** The generation loop *)

Section LoopFacts.

Variable preferences : Preferences.
Variable imageUrl : string.

Lemma failed_design_shape (designVariation : DesignVariation) :
  failed_design designVariation preferences
  = (shared_fields designVariation preferences ++ failure_fields)%list.
Proof. reflexivity. Qed.

(** What one attempt yields, by the outcome of its call. *)
Lemma attempt_cases (designVariation : DesignVariation) (outcome : SynthesisOutcome) :
  (exists url prompt,
      attempt designVariation preferences imageUrl outcome
      = Normal (shared_fields designVariation preferences ++ success_fields url prompt)%list
      /\ createImagePrompt designVariation preferences imageUrl = Normal prompt
      /\ outcome = Responds (Some url) /\ truthy url = true)
  \/ (exists error,
      attempt designVariation preferences imageUrl outcome = Throw error
      /\ (fails outcome = true
          \/ is_array (storageFeatures designVariation) = false)).
Proof.
  unfold attempt.
  destruct (createImagePrompt designVariation preferences imageUrl) as [prompt|e] eqn:Ep.
  - cbn [bind]. destruct outcome as [e|[url|]]; cbn [bind].
    + right. exists e. split; [reflexivity | now left].
    + destruct (truthy url) eqn:Eu.
      * left. exists url, prompt. auto.
      * right. eexists. split; [reflexivity|]. left. cbn. now rewrite Eu.
    + right. eexists. split; [reflexivity | now left].
  - right. exists e. split; [reflexivity|]. right.
    destruct (storageFeatures designVariation) as [s|items|m] eqn:Es; try reflexivity.
    rewrite (createImagePrompt_composed _ _ _ _ Es) in Ep. discriminate.
Qed.

Lemma succeeds_array (designVariation : DesignVariation) (outcome : SynthesisOutcome) :
  is_array (storageFeatures designVariation) = true ->
  succeeds preferences imageUrl designVariation outcome = negb (fails outcome).
Proof.
  intros Ha. unfold succeeds.
  destruct (attempt_cases designVariation outcome)
    as [(url & prompt & -> & _ & -> & Hu) | (e & -> & [Hf | Hn])].
  - cbn. now rewrite Hu.
  - now rewrite Hf.
  - congruence.
Qed.

Lemma pushed_design_shape (designVariation : DesignVariation) (outcome : SynthesisOutcome) :
  if succeeds preferences imageUrl designVariation outcome
  then exists url prompt,
         pushed_design preferences imageUrl designVariation outcome
         = (shared_fields designVariation preferences ++ success_fields url prompt)%list
  else pushed_design preferences imageUrl designVariation outcome
       = (shared_fields designVariation preferences ++ failure_fields)%list.
Proof.
  unfold succeeds, pushed_design.
  destruct (attempt_cases designVariation outcome)
    as [(url & prompt & -> & _) | (e & -> & _)]; eauto.
Qed.

Lemma iteration_pushes (designs : list GeneratedDesign) (stats : GenerationStats)
    (designVariation : DesignVariation) (outcome : SynthesisOutcome) :
  iteration preferences imageUrl (designs, stats) designVariation outcome
  = ((designs ++ [pushed_design preferences imageUrl designVariation outcome])%list,
     if succeeds preferences imageUrl designVariation outcome
     then {| imagesGenerated := S (imagesGenerated stats);
             imagesFailed := imagesFailed stats |}
     else {| imagesGenerated := imagesGenerated stats;
             imagesFailed := S (imagesFailed stats) |}).
Proof.
  unfold iteration, succeeds, pushed_design, push.
  destruct (attempt designVariation preferences imageUrl outcome); reflexivity.
Qed.

Variable synthesize : nat -> SynthesisOutcome.

Lemma successes_bound (designVariations : list DesignVariation) (index : nat) :
  successes preferences imageUrl synthesize index designVariations
  <= length designVariations.
Proof.
  revert index. induction designVariations as [|w rest IH]; intros index; cbn; [lia|].
  specialize (IH (S index)). destruct (succeeds _ _ _ _); lia.
Qed.

Lemma generate_loop_pushes (designVariations : list DesignVariation) :
  forall (index : nat) (designs : list GeneratedDesign) (stats : GenerationStats),
    generate_loop preferences imageUrl synthesize index designVariations (designs, stats)
    = ((designs ++ pushed_designs preferences imageUrl synthesize index designVariations)%list,
       {| imagesGenerated :=
            imagesGenerated stats
            + successes preferences imageUrl synthesize index designVariations;
          imagesFailed :=
            imagesFailed stats
            + (length designVariations
               - successes preferences imageUrl synthesize index designVariations) |}).
Proof.
  induction designVariations as [|v rest IH]; intros index designs stats.
  - cbn. rewrite app_nil_r, !Nat.add_0_r. now destruct stats.
  - cbn [generate_loop pushed_designs successes length].
    rewrite iteration_pushes.
    pose proof (successes_bound rest (S index)) as Hle.
    destruct (succeeds preferences imageUrl v (synthesize index));
      rewrite IH; cbn [imagesGenerated imagesFailed];
      rewrite <- app_assoc; cbn [app]; f_equal; f_equal; lia.
Qed.

Lemma pushed_designs_length (designVariations : list DesignVariation) (index : nat) :
  length (pushed_designs preferences imageUrl synthesize index designVariations)
  = length designVariations.
Proof.
  revert index. induction designVariations as [|w rest IH]; intros index; cbn; auto.
Qed.

Lemma generate_built (designVariations : list DesignVariation) :
  createDesignVariations preferences = Normal designVariations ->
  generate preferences imageUrl synthesize
  = Generated
      (pushed_designs preferences imageUrl synthesize 0 designVariations)
      {| imagesGenerated := successes preferences imageUrl synthesize 0 designVariations;
         imagesFailed :=
           length designVariations
           - successes preferences imageUrl synthesize 0 designVariations |}
      ("Generated "
         ++ number_to_string (successes preferences imageUrl synthesize 0 designVariations)
         ++ " personalized kitchen designs for Urban Woodspace!").
Proof.
  intros H. unfold generate. rewrite H. cbn [bind].
  rewrite generate_loop_pushes. reflexivity.
Qed.

Lemma generate_raises (error : string) :
  createDesignVariations preferences = Throw error ->
  generate preferences imageUrl synthesize
  = Failed 500 "Failed to process request. Please try again.".
Proof. intros H. unfold generate. now rewrite H. Qed.

End LoopFacts.

Section PushedFacts.

Variable preferences : Preferences.
Variable imageUrl : string.

Lemma pushed_design_array (v : DesignVariation) (outcome : SynthesisOutcome) :
  is_array (storageFeatures v) = true ->
  exists url prompt,
    pushed_design preferences imageUrl v outcome
    = (shared_fields v preferences
         ++ (if fails outcome then failure_fields else success_fields url prompt))%list.
Proof.
  intros Ha. pose proof (pushed_design_shape preferences imageUrl v outcome) as H.
  rewrite succeeds_array in H by assumption.
  destruct (fails outcome); cbn [negb] in H.
  - now exists "", "".
  - exact H.
Qed.

Lemma pushed_designs_correspond (synthesize : nat -> SynthesisOutcome)
    (designVariations : list DesignVariation) (index : nat) :
  Forall2
    (fun v design =>
       design = (shared_fields v preferences ++ failure_fields)%list
       \/ exists url prompt,
            design = (shared_fields v preferences ++ success_fields url prompt)%list)
    designVariations
    (pushed_designs preferences imageUrl synthesize index designVariations).
Proof.
  revert index. induction designVariations as [|v rest IH]; intros index; cbn.
  - constructor.
  - constructor; [|apply IH].
    pose proof (pushed_design_shape preferences imageUrl v (synthesize index)) as H.
    destruct (succeeds preferences imageUrl v (synthesize index)); auto.
Qed.

End PushedFacts.

(** ** The claims *)

(** C1. In a run over the three variations in which the synthesis call
    fails for exactly one of them, the route answers with three designs
    and the statistics [{imagesGenerated: 2, imagesFailed: 1}]; exactly one
    design has [imageStatus] ["failed"], it is the one whose call failed,
    and it has neither [generatedImage] nor [imagePrompt]; no error leaves
    the loop (the answer is [Generated], not [Failed]). *)
Theorem C1_single_failure_is_isolated (preferences : Preferences) (imageUrl : string)
    (synthesize : nat -> SynthesisOutcome) (designVariations : list DesignVariation) :
  createDesignVariations preferences = Normal designVariations ->
  length (filter fails [synthesize 0; synthesize 1; synthesize 2]) = 1 ->
  exists designs message,
    generate preferences imageUrl synthesize
    = Generated designs {| imagesGenerated := 2; imagesFailed := 1 |} message
    /\ length designs = 3
    /\ length (filter (has_status "failed") designs) = 1
    /\ length (filter (has_status "success") designs) = 2
    /\ (forall design, In design designs -> has_status "failed" design = true ->
          own_property design "generatedImage" = None
          /\ own_property design "imagePrompt" = None)
    /\ (forall index design, nth_error designs index = Some design ->
          has_status "failed" design = fails (synthesize index)).
Proof.
  intros Hbuilt Hone.
  destruct (createDesignVariations_arrays _ _ Hbuilt) as [Hlen Harr].
  destruct designVariations as [|v1 [|v2 [|v3 [|]]]]; try discriminate Hlen.
  inversion Harr as [|? ? A1 Harr1]; subst.
  inversion Harr1 as [|? ? A2 Harr2]; subst.
  inversion Harr2 as [|? ? A3 _]; subst.
  rewrite (generate_built _ _ _ _ Hbuilt).
  cbn [pushed_designs successes length].
  rewrite !succeeds_array by assumption.
  destruct (pushed_design_array preferences imageUrl v1 (synthesize 0) A1) as (u1 & p1 & ->).
  destruct (pushed_design_array preferences imageUrl v2 (synthesize 1) A2) as (u2 & p2 & ->).
  destruct (pushed_design_array preferences imageUrl v3 (synthesize 2) A3) as (u3 & p3 & ->).
  cbn [filter] in Hone.
  destruct (fails (synthesize 0)) eqn:F0, (fails (synthesize 1)) eqn:F1,
    (fails (synthesize 2)) eqn:F2;
    try discriminate Hone;
    (do 2 eexists; split; [reflexivity|]);
    (split; [reflexivity|]); (split; [reflexivity|]); (split; [reflexivity|]);
    (split;
     [ intros design [<-|[<-|[<-|[]]]] Hs; try discriminate Hs; split; reflexivity
     | intros [|[|[|index]]] design Hn; cbn [nth_error] in Hn;
       [ injection Hn as <-; now rewrite F0
       | injection Hn as <-; now rewrite F1
       | injection Hn as <-; now rewrite F2
       | destruct index; discriminate Hn ] ]).
Qed.

Lemma C1_single_failure_is_isolated_witness :
  exists designs message,
    generate sample_preferences "data:image/png;base64,AAAA" sample_synthesize
    = Generated designs {| imagesGenerated := 2; imagesFailed := 1 |} message
    /\ length designs = 3
    /\ length (filter (has_status "failed") designs) = 1
    /\ length (filter (has_status "success") designs) = 2
    /\ (forall design, In design designs -> has_status "failed" design = true ->
          own_property design "generatedImage" = None
          /\ own_property design "imagePrompt" = None)
    /\ (forall index design, nth_error designs index = Some design ->
          has_status "failed" design = fails (sample_synthesize index)).
Proof.
  eapply C1_single_failure_is_isolated.
  - vm_compute. reflexivity.
  - reflexivity.
Defined.

(** C2. For every preferences value and every pattern of synthesis
    outcomes: when the builder yields its variations, the route answers
    with one design per variation, the design at each position starting
    with the ten properties of the variation at that position, and the two
    counters add up to the number of designs.  (The builder yields no
    variation exactly when [storageNeeds] names a member of
    [Object.prototype]; the route then answers with the generic failure.) *)
Theorem C2_one_design_per_variation (preferences : Preferences) (imageUrl : string)
    (synthesize : nat -> SynthesisOutcome) :
  if inherited (storageNeeds preferences)
  then generate preferences imageUrl synthesize
       = Failed 500 "Failed to process request. Please try again."
  else exists designVariations designs stats message,
      createDesignVariations preferences = Normal designVariations
      /\ generate preferences imageUrl synthesize = Generated designs stats message
      /\ length designs = length designVariations
      /\ Forall2
           (fun v design =>
              exists status_fields,
                design = (shared_fields v preferences ++ status_fields)%list)
           designVariations designs
      /\ imagesGenerated stats + imagesFailed stats = length designs.
Proof.
  destruct (inherited (storageNeeds preferences)) eqn:Hi.
  - eapply generate_raises. now apply createDesignVariations_raises.
  - destruct (createDesignVariations_built _ Hi) as (v1 & v2 & v3 & _ & _ & _ & E & _).
    exists [v1; v2; v3]. do 3 eexists.
    split; [exact E|].
    split; [apply (generate_built _ _ _ _ E)|].
    split; [apply pushed_designs_length|].
    split.
    + eapply Forall2_impl; [|apply pushed_designs_correspond].
      intros v d [-> | (url & prompt & ->)]; eauto.
    + cbn [imagesGenerated imagesFailed]. rewrite pushed_designs_length.
      pose proof (successes_bound preferences imageUrl synthesize [v1; v2; v3] 0). lia.
Qed.

(** C3. For preferences whose [storageNeeds] names no member of
    [Object.prototype] (all valid ones), [createDesignVariations] returns
    exactly three variations; their complexities are ["high"],
    ["premium"], ["standard"], their timelines ["10-12 weeks"],
    ["12-14 weeks"], ["8-10 weeks"], and they are built for the tiers
    primary, enhanced, value in that order. *)
Theorem C3_three_variations_in_tier_order (preferences : Preferences) :
  inherited (storageNeeds preferences) = false ->
  exists v1 v2 v3,
    createDesignVariations preferences = Normal [v1; v2; v3]
    /\ map complexity [v1; v2; v3] = ["high"; "premium"; "standard"]
    /\ map timeline [v1; v2; v3] = ["10-12 weeks"; "12-14 weeks"; "8-10 weeks"]
    /\ map cabinetStyle [v1; v2; v3]
       = map (getCabinetStyle (kitchenStyle preferences)) [primary; enhanced; value]
    /\ map colorPalette [v1; v2; v3]
       = map (getColorPalette (colorPreference preferences)) [primary; enhanced; value]
    /\ map keyFeatures [v1; v2; v3] = map (at_tier baseFeatures) [primary; enhanced; value]
    /\ map (fun v => Normal (storageFeatures v)) [v1; v2; v3]
       = map (getStorageFeatures (storageNeeds preferences)) [primary; enhanced; value].
Proof.
  intros Hi.
  destruct (createDesignVariations_built _ Hi)
    as (v1 & v2 & v3 & s1 & s2 & s3 & E & H1 & H2 & H3 & G1 & G2 & G3 & Hc & Ht & Hs & Hp & Hk).
  exists v1, v2, v3. repeat (split; [assumption|]).
  cbn [map]. now rewrite H1, H2, H3, G1, G2, G3.
Qed.

Lemma C3_three_variations_in_tier_order_witness :
  exists v1 v2 v3,
    createDesignVariations sample_preferences = Normal [v1; v2; v3]
    /\ map complexity [v1; v2; v3] = ["high"; "premium"; "standard"]
    /\ map timeline [v1; v2; v3] = ["10-12 weeks"; "12-14 weeks"; "8-10 weeks"]
    /\ map cabinetStyle [v1; v2; v3]
       = map (getCabinetStyle (kitchenStyle sample_preferences)) [primary; enhanced; value]
    /\ map colorPalette [v1; v2; v3]
       = map (getColorPalette (colorPreference sample_preferences)) [primary; enhanced; value]
    /\ map keyFeatures [v1; v2; v3] = map (at_tier baseFeatures) [primary; enhanced; value]
    /\ map (fun v => Normal (storageFeatures v)) [v1; v2; v3]
       = map (getStorageFeatures (storageNeeds sample_preferences)) [primary; enhanced; value].
Proof.
  apply (C3_three_variations_in_tier_order sample_preferences).
  reflexivity.
Defined.

(** C4 (the code at the failing input).  ["constructor"] is none of the
    five storage keys, yet [getStorageFeatures] does not use the generic
    list for it: the lookup finds the member [constructor] of
    [Object.prototype], which the primary and value tiers return as it is
    and the enhanced tier fails to spread; the builder raises and the
    route answers with the generic failure. *)
Theorem C4_inherited_storage_key_skips_fallback :
  ~ In "constructor" (keys features)
  /\ getStorageFeatures "constructor" primary = Normal (VPrototypeMember "constructor")
  /\ getStorageFeatures "constructor" primary <> Normal (VArray generic_storage_features)
  /\ getStorageFeatures "constructor" value = Normal (VPrototypeMember "constructor")
  /\ getStorageFeatures "constructor" enhanced = Throw "TypeError: baseFeatures is not iterable"
  /\ (forall preferences imageUrl synthesize,
        storageNeeds preferences = "constructor" ->
        generate preferences imageUrl synthesize
        = Failed 500 "Failed to process request. Please try again.").
Proof.
  split.
  { cbn [keys features map fst]. intros H.
    repeat (destruct H as [H|H]; [discriminate H|]). destruct H. }
  repeat split; try reflexivity.
  - discriminate.
  - intros preferences imageUrl synthesize Hs.
    eapply generate_raises. apply createDesignVariations_raises. now rewrite Hs.
Qed.

(** C5 (the code at the failing input).  ["constructor"] is none of the
    five budget brackets, yet with complexity ["high"] the estimate is not
    the default bracket's: the lookup finds the member [constructor] of
    [Object.prototype], whose [min] and [max] are [undefined]. *)
Theorem C5_inherited_budget_key_gives_NaN :
  ~ In "constructor" (keys budgetMultipliers)
  /\ calculateCost "constructor" "high" = "$NaN - $NaN CAD"
  /\ calculateCost "constructor" "high" <> "$35,000 - $50,000 CAD".
Proof.
  split.
  { cbn [keys budgetMultipliers map fst]. intros H.
    repeat (destruct H as [H|H]; [discriminate H|]). destruct H. }
  split; [reflexivity|]. rewrite calculateCost_inherited_budget by reflexivity.
  discriminate.
Qed.

(** C6. When [storageFeatures] lists at least three items, the prompt is
    the clauses before the storage clause, then ["Storage features: "],
    the first three items separated by [", "], and [". "], then the
    clauses after it; no other item of the list occurs in that text. *)
Theorem C6_storage_clause_first_three (design : DesignVariation)
    (preferences : Preferences) (originalImageUrl : string) (items : list string) :
  storageFeatures design = VArray items ->
  3 <= length items ->
  exists first second third,
    firstn 3 items = [first; second; third]
    /\ createImagePrompt design preferences originalImageUrl
       = Normal
           ((base_sentence (kitchenStyle preferences)
               ++ style_clause (kitchenStyle preferences)
               ++ color_clause (colorPalette design)
               ++ cooking_clauses (cookingHabits preferences)
               ++ family_clause (familySize preferences)
               ++ technical_clause (cabinetStyle design))
            ++ ("Storage features: " ++ first ++ ", " ++ second ++ ", " ++ third ++ ". ")
            ++ (calgary_clause ++ closing_clause)).
Proof.
  intros Hitems Hlen.
  destruct items as [|first [|second [|third rest]]]; cbn in Hlen; try lia.
  exists first, second, third. split; [reflexivity|].
  rewrite (createImagePrompt_composed _ _ _ _ Hitems).
  unfold composed_prompt, storage_clause, join. cbn [firstn String.concat].
  now rewrite !append_assoc_r.
Qed.

Lemma C6_storage_clause_first_three_witness :
  exists first second third,
    firstn 3 ["Pull-out drawers"; "Spice racks"; "Corner units"; "Wine storage";
              "Pantry shelves"] = [first; second; third]
    /\ createImagePrompt sample_variation sample_preferences "data:image/png;base64,AAAA"
       = Normal
           ((base_sentence (kitchenStyle sample_preferences)
               ++ style_clause (kitchenStyle sample_preferences)
               ++ color_clause (colorPalette sample_variation)
               ++ cooking_clauses (cookingHabits sample_preferences)
               ++ family_clause (familySize sample_preferences)
               ++ technical_clause (cabinetStyle sample_variation))
            ++ ("Storage features: " ++ first ++ ", " ++ second ++ ", " ++ third ++ ". ")
            ++ (calgary_clause ++ closing_clause)).
Proof.
  apply (C6_storage_clause_first_three sample_variation sample_preferences
           "data:image/png;base64,AAAA" _ eq_refl).
  cbn. lia.
Defined.

Lemma Normal_inj {A : Type} (a b : A) : Normal a = Normal b -> a = b.
Proof. intros H. injection H. auto. Qed.

(** C7 (as stated, refuted).  The prompt of the sample variation is not
    the concatenation of the eight clauses the claim lists: the source
    appends one more clause, about Calgary homes, between the storage
    clause and the closing clause. *)
Lemma C7_listed_clauses_are_not_all :
  createImagePrompt sample_variation sample_preferences "data:image/png;base64,AAAA"
  <> Normal
       (specified_prompt sample_variation sample_preferences
          ["Pull-out drawers"; "Spice racks"; "Corner units"; "Wine storage";
           "Pantry shelves"]).
Proof.
  rewrite (createImagePrompt_composed sample_variation sample_preferences _ _ eq_refl).
  intros H. apply Normal_inj in H.
  apply String.eqb_eq in H. vm_compute in H. discriminate H.
Qed.

(** C7 (amended).  For a variation whose [storageFeatures] is a list, the
    prompt is exactly, in this order: the base sentence naming the style,
    the clause of the style (none for an unrecognized style), the colour
    clause, the cooking clauses, the family clause, the technical clause
    with the cabinet style, the storage clause, the Calgary clause and the
    closing clause. *)
Theorem C7_prompt_is_ordered_clauses (design : DesignVariation)
    (preferences : Preferences) (originalImageUrl : string) (items : list string) :
  storageFeatures design = VArray items ->
  createImagePrompt design preferences originalImageUrl
  = Normal
      (base_sentence (kitchenStyle preferences)
       ++ style_clause (kitchenStyle preferences)
       ++ color_clause (colorPalette design)
       ++ cooking_clauses (cookingHabits preferences)
       ++ family_clause (familySize preferences)
       ++ technical_clause (cabinetStyle design)
       ++ storage_clause items
       ++ calgary_clause
       ++ closing_clause).
Proof. apply createImagePrompt_composed. Qed.

Lemma C7_prompt_is_ordered_clauses_witness :
  createImagePrompt sample_variation sample_preferences "data:image/png;base64,AAAA"
  = Normal
      (base_sentence "modern"
       ++ style_clause "modern"
       ++ color_clause "White uppers with gray lowers and coordinated hardware"
       ++ cooking_clauses "daily-cook"
       ++ family_clause "large-family"
       ++ technical_clause "Ultra-flat doors with minimal linear hardware"
       ++ storage_clause ["Pull-out drawers"; "Spice racks"; "Corner units";
                          "Wine storage"; "Pantry shelves"]
       ++ calgary_clause
       ++ closing_clause).
Proof.
  apply (C7_prompt_is_ordered_clauses sample_variation sample_preferences
           "data:image/png;base64,AAAA" _ eq_refl).
Defined.

(** ** The analysis extractors *)

Section ExtractorFacts.

Variable text : string.
Hypothesis quiet : no_keyword text.

Lemma find_none_on {A : Type} (f : A -> bool) (l : list A) :
  (forall x, In x l -> f x = false) -> find f l = None.
Proof.
  induction l as [|x l IH]; intros H; cbn; [reflexivity|].
  rewrite (H x (or_introl eq_refl)). apply IH. intros y Hy. apply H. now right.
Qed.

Lemma quiet_text (k : string) :
  In k recognized_keywords -> includes (toLowerCase text) k = false.
Proof. apply quiet. Qed.

Lemma quiet_line (line k : string) :
  In k recognized_keywords ->
  In line (split_lines (toLowerCase text)) ->
  includes line k = false.
Proof.
  intros Hk Hline. destruct (includes line k) eqn:E; [|reflexivity].
  rewrite <- (quiet k Hk). symmetry. now apply includes_line with line.
Qed.

Ltac keyword := cbn [recognized_keywords In]; tauto.

Lemma extractFromAnalysis_quiet (type : string) :
  extractFromAnalysis text type = None.
Proof.
  unfold extractFromAnalysis. cbv zeta.
  destruct (type =? "dimensions");
  [| destruct (type =? "layout"); [| destruct (type =? "lighting"); [| reflexivity]]];
  rewrite find_none_on; try reflexivity; intros line Hline;
  repeat match goal with
  | |- context [includes line ?k] =>
      rewrite (quiet_line line k ltac:(keyword) Hline)
  end; reflexivity.
Qed.

Lemma spaceAnalysis_quiet :
  spaceAnalysis text =
  {| roomDimensions := "Approximately 10' x 12' kitchen space";
     layoutType := "Standard kitchen layout";
     existingFeatures :=
       [ "Natural lighting"; "Standard ceiling height"; "Existing flooring" ];
     challenges :=
       [ "Space optimization needed"; "Storage improvements"; "Lighting updates" ];
     opportunities :=
       [ "Maximize vertical storage with tall cabinets";
         "Improve workflow with optimized layout";
         "Add modern lighting solutions";
         "Create more counter workspace";
         "Enhance storage organization" ];
     lightingSituation := "Natural light from windows";
     architecturalElements :=
       [ "Standard wall construction"; "Existing flooring"; "Window placement";
         "Door locations" ];
     recommendedStyles := [ "Contemporary"; "Traditional"; "Transitional" ];
     spaceOptimization :=
       [ "Optimize work triangle efficiency";
         "Maximize storage capacity";
         "Improve traffic flow";
         "Enhance natural lighting" ] |}.
Proof.
  unfold spaceAnalysis. rewrite !extractFromAnalysis_quiet.
  unfold extractFeatures, extractChallenges, extractRecommendedStyles. cbv zeta.
  repeat match goal with
  | |- context [includes (toLowerCase text) ?k] =>
      rewrite (quiet_text k ltac:(keyword))
  end.
  reflexivity.
Qed.

End ExtractorFacts.

(** C8. For a text in which no recognized keyword occurs (the search is
    on the lower-cased text), the analysis equals the fixed defaults, no
    field of it is empty, and extracting again from the same text gives
    the same analysis. *)
Theorem C8_quiet_text_gives_defaults (text : string) :
  no_keyword text ->
  spaceAnalysis text = default_analysis
  /\ populated (spaceAnalysis text)
  /\ (forall again, again = text -> spaceAnalysis again = spaceAnalysis text).
Proof.
  intros quiet. rewrite (spaceAnalysis_quiet text quiet).
  split; [reflexivity|]. split.
  - unfold populated. cbn. repeat split; discriminate.
  - intros again ->. now rewrite (spaceAnalysis_quiet text quiet).
Qed.

Lemma C8_quiet_text_gives_defaults_witness :
  spaceAnalysis "A cozy room." = default_analysis
  /\ populated (spaceAnalysis "A cozy room.")
  /\ (forall again, again = "A cozy room." ->
        spaceAnalysis again = spaceAnalysis "A cozy room.").
Proof.
  apply (C8_quiet_text_gives_defaults "A cozy room.").
  intros k Hk. cbn [recognized_keywords In] in Hk.
  repeat (destruct Hk as [<-|Hk]; [vm_compute; reflexivity|]). destruct Hk.
Defined.

(** C9. [getKeyFeatures] depends on its tier only: for a fixed tier, any
    two calls return the same list, the tier's entry of [baseFeatures],
    whatever their style, storage and cooking arguments. *)
Theorem C9_key_features_depend_on_tier_only (tier : Tier)
    (style storage cooking style' storage' cooking' : string) :
  getKeyFeatures style storage cooking tier = getKeyFeatures style' storage' cooking' tier
  /\ getKeyFeatures style storage cooking tier = at_tier baseFeatures tier.
Proof. split; reflexivity. Qed.

Section DesignFacts.

Variable preferences : Preferences.
Variable v : DesignVariation.

Lemma design_keys (url prompt : string) :
  keys (shared_fields v preferences ++ success_fields url prompt)%list
  = (shared_keys ++ ["generatedImage"; "imagePrompt"; "imageStatus"])%list
  /\ keys (shared_fields v preferences ++ failure_fields)%list
     = (shared_keys ++ ["imageStatus"])%list.
Proof. split; reflexivity. Qed.

Lemma design_shared (url prompt k : string) :
  In k shared_keys ->
  own_property (shared_fields v preferences ++ success_fields url prompt)%list k
  = own_property (shared_fields v preferences ++ failure_fields)%list k
  /\ own_property (shared_fields v preferences ++ failure_fields)%list k <> None.
Proof.
  intros Hk. cbn [shared_keys In] in Hk.
  repeat (destruct Hk as [<-|Hk]; [split; [reflexivity | discriminate]|]).
  destruct Hk.
Qed.

End DesignFacts.

Section RecordFacts.

Variable preferences : Preferences.
Variable imageUrl : string.

(** The design pushed for a variation whose storage features are an
    array, by the outcome of its call. *)
Lemma pushed_design_determined (v : DesignVariation) (outcome : SynthesisOutcome)
    (items : list string) :
  storageFeatures v = VArray items ->
  createImagePrompt v preferences imageUrl = Normal (composed_prompt v preferences items)
  /\ (forall url, outcome = Responds (Some url) -> truthy url = true ->
        pushed_design preferences imageUrl v outcome
        = (shared_fields v preferences
             ++ success_fields url (composed_prompt v preferences items))%list)
  /\ (fails outcome = true ->
        pushed_design preferences imageUrl v outcome
        = (shared_fields v preferences ++ failure_fields)%list).
Proof.
  intros Hitems.
  pose proof (createImagePrompt_composed v preferences imageUrl items Hitems) as Hp.
  split; [exact Hp|]. unfold pushed_design, attempt. rewrite Hp. cbn [bind]. split.
  - intros url -> Hu. cbn [bind]. rewrite Hu. reflexivity.
  - destruct outcome as [e|[url|]]; cbn [bind fails]; intros Hf; try reflexivity.
    apply negb_true_iff in Hf. rewrite Hf. reflexivity.
Qed.

Lemma nth_error_pushed_designs (synthesize : nat -> SynthesisOutcome)
    (designVariations : list DesignVariation) :
  forall index k v,
    nth_error designVariations k = Some v ->
    nth_error (pushed_designs preferences imageUrl synthesize index designVariations) k
    = Some (pushed_design preferences imageUrl v (synthesize (index + k))).
Proof.
  induction designVariations as [|w rest IH]; intros index k v Hk.
  - destruct k; discriminate Hk.
  - destruct k as [|k]; cbn [nth_error pushed_designs] in *.
    + injection Hk as ->. now rewrite Nat.add_0_r.
    + rewrite (IH (S index) k v Hk). now rewrite Nat.add_succ_r.
Qed.

End RecordFacts.

(** C10. The generate branch returns one design per variation, and the
    design at a position is the record the code pushes for the variation
    at that position and the outcome of its synthesis call: when the call
    answers with a non-empty URL, the ten shared properties of the
    variation followed by [generatedImage] (that URL), [imagePrompt] (the
    prompt [createImagePrompt] composed for the variation) and
    [imageStatus] ["success"]; when the call raises or yields no URL, the
    same ten followed by [imageStatus] ["failed"] alone.  Either way the
    design holds the variation's name under [styleName] and has no
    property [name].  The two records of a variation hold the same ten
    shared properties with the same values, [estimatedCost] being
    [calculateCost] of the same arguments in both. *)
Theorem C10_success_and_failure_records_agree (preferences : Preferences)
    (imageUrl : string) (synthesize : nat -> SynthesisOutcome)
    (designs : list GeneratedDesign) (stats : GenerationStats) (message : string) :
  generate preferences imageUrl synthesize = Generated designs stats message ->
  (exists designVariations,
      createDesignVariations preferences = Normal designVariations
      /\ length designs = length designVariations
      /\ forall index v,
           nth_error designVariations index = Some v ->
           exists design prompt,
             nth_error designs index = Some design
             /\ createImagePrompt v preferences imageUrl = Normal prompt
             /\ (forall url,
                   synthesize index = Responds (Some url) -> truthy url = true ->
                   design = (shared_fields v preferences ++ success_fields url prompt)%list)
             /\ (fails (synthesize index) = true ->
                   design = (shared_fields v preferences ++ failure_fields)%list)
             /\ own_property design "styleName" = Some (VString (name v))
             /\ own_property design "name" = None)
  /\ (forall v url prompt,
        let success := (shared_fields v preferences ++ success_fields url prompt)%list in
        let failure := (shared_fields v preferences ++ failure_fields)%list in
        keys success = (shared_keys ++ ["generatedImage"; "imagePrompt"; "imageStatus"])%list
        /\ keys failure = (shared_keys ++ ["imageStatus"])%list
        /\ (forall k, In k shared_keys ->
              own_property success k = own_property failure k
              /\ own_property failure k <> None)
        /\ own_property success "estimatedCost"
           = Some (VString (calculateCost (budgetRange preferences) (complexity v)))
        /\ own_property failure "estimatedCost"
           = Some (VString (calculateCost (budgetRange preferences) (complexity v)))
        /\ own_property success "generatedImage" = Some (VString url)
        /\ own_property success "imagePrompt" = Some (VString prompt)
        /\ own_property success "imageStatus" = Some (VString "success")
        /\ own_property failure "imageStatus" = Some (VString "failed")).
Proof.
  intros Hgen. split.
  - destruct (createDesignVariations preferences) as [vs|e] eqn:E.
    + exists vs. split; [reflexivity|].
      rewrite (generate_built _ _ _ _ E) in Hgen. injection Hgen as <- _ _.
      split; [apply pushed_designs_length|].
      intros index v Hv.
      destruct (createDesignVariations_arrays _ _ E) as [_ Harr].
      rewrite Forall_forall in Harr.
      pose proof (Harr v (nth_error_In _ _ Hv)) as Ha.
      destruct (storageFeatures v) as [s|items|m] eqn:Es; try discriminate Ha.
      destruct (pushed_design_determined preferences imageUrl v (synthesize index)
                  items Es) as (Hp & Hs & Hf).
      exists (pushed_design preferences imageUrl v (synthesize index)),
             (composed_prompt v preferences items).
      split; [exact (nth_error_pushed_designs preferences imageUrl synthesize vs 0 index v Hv)|].
      split; [exact Hp|]. split; [exact Hs|]. split; [exact Hf|].
      destruct (fails (synthesize index)) eqn:Ef.
      * rewrite (Hf eq_refl). split; reflexivity.
      * destruct (synthesize index) as [e|[url|]]; try discriminate Ef.
        cbn [fails] in Ef. apply negb_false_iff in Ef.
        rewrite (Hs url eq_refl Ef). split; reflexivity.
    + rewrite (generate_raises _ _ _ _ E) in Hgen. discriminate Hgen.
  - intros v url prompt. cbv zeta.
    destruct (design_keys preferences v url prompt) as [Ks Kf].
    split; [exact Ks|]. split; [exact Kf|].
    split; [exact (design_shared preferences v url prompt)|].
    repeat split; reflexivity.
Qed.

Lemma C10_success_and_failure_records_agree_witness :
  (exists designVariations,
      createDesignVariations sample_preferences = Normal designVariations
      /\ length sample_designs = length designVariations
      /\ forall index v,
           nth_error designVariations index = Some v ->
           exists design prompt,
             nth_error sample_designs index = Some design
             /\ createImagePrompt v sample_preferences "data:image/png;base64,AAAA"
                = Normal prompt
             /\ (forall url,
                   sample_synthesize index = Responds (Some url) -> truthy url = true ->
                   design = (shared_fields v sample_preferences
                               ++ success_fields url prompt)%list)
             /\ (fails (sample_synthesize index) = true ->
                   design = (shared_fields v sample_preferences ++ failure_fields)%list)
             /\ own_property design "styleName" = Some (VString (name v))
             /\ own_property design "name" = None)
  /\ (forall v url prompt,
        let success := (shared_fields v sample_preferences ++ success_fields url prompt)%list in
        let failure := (shared_fields v sample_preferences ++ failure_fields)%list in
        keys success = (shared_keys ++ ["generatedImage"; "imagePrompt"; "imageStatus"])%list
        /\ keys failure = (shared_keys ++ ["imageStatus"])%list
        /\ (forall k, In k shared_keys ->
              own_property success k = own_property failure k
              /\ own_property failure k <> None)
        /\ own_property success "estimatedCost"
           = Some (VString (calculateCost (budgetRange sample_preferences) (complexity v)))
        /\ own_property failure "estimatedCost"
           = Some (VString (calculateCost (budgetRange sample_preferences) (complexity v)))
        /\ own_property success "generatedImage" = Some (VString url)
        /\ own_property success "imagePrompt" = Some (VString prompt)
        /\ own_property success "imageStatus" = Some (VString "success")
        /\ own_property failure "imageStatus" = Some (VString "failed")).
Proof.
  eapply (C10_success_and_failure_records_agree sample_preferences
            "data:image/png;base64,AAAA" sample_synthesize).
  vm_compute. reflexivity.
Defined.

(** ** Further properties of the lookups and of the estimator *)

(** For every style that is none of the seven keys of [styles], and every
    tier, the cabinet style is the fallback text; a style naming a member
    of [Object.prototype] is no exception, as no such member has a
    property named after a tier. *)
Theorem getCabinetStyle_unknown_style (style : string) (tier : Tier) :
  ~ In style [ "contemporary"; "traditional"; "transitional"; "modern"; "farmhouse";
               "scandinavian"; "industrial" ] ->
  getCabinetStyle style tier = "Custom cabinet style".
Proof.
  intros H. unfold getCabinetStyle. now rewrite (tier_entry_not_own styles style tier H).
Qed.

Lemma getCabinetStyle_unknown_style_witness :
  getCabinetStyle "constructor" enhanced = "Custom cabinet style".
Proof.
  apply (getCabinetStyle_unknown_style "constructor" enhanced).
  cbn [In]. intros H. repeat (destruct H as [H|H]; [discriminate H|]). exact H.
Defined.

(** For every colour preference that is none of the five keys of
    [palettes], and every tier, the palette is the fallback text. *)
Theorem getColorPalette_unknown_preference (colorPref : string) (tier : Tier) :
  ~ In colorPref [ "light-neutral"; "dark-dramatic"; "warm-wood"; "two-tone";
                   "bold-colors" ] ->
  getColorPalette colorPref tier = "Custom color palette designed for your space".
Proof.
  intros H. unfold getColorPalette.
  now rewrite (tier_entry_not_own palettes colorPref tier H).
Qed.

Lemma getColorPalette_unknown_preference_witness :
  getColorPalette "pastel" value = "Custom color palette designed for your space".
Proof.
  apply (getColorPalette_unknown_preference "pastel" value).
  cbn [In]. intros H. repeat (destruct H as [H|H]; [discriminate H|]). exact H.
Defined.

(** For every storage need that is none of the five keys of [features]
    and names no member of [Object.prototype], the storage features are
    the four generic items, followed by the two enhanced items when the
    tier is enhanced. *)
Theorem getStorageFeatures_unknown_need (storage : string) (tier : Tier) :
  ~ In storage [ "maximum-storage"; "organized-storage"; "display-storage";
                 "hidden-storage"; "pantry-storage" ] ->
  inherited storage = false ->
  getStorageFeatures storage tier
  = Normal (VArray (generic_storage_features
                      ++ match tier with
                         | enhanced => enhanced_storage_features
                         | _ => []
                         end)%list).
Proof.
  intros Hk Hi. unfold getStorageFeatures.
  rewrite (get_absent features storage Hk Hi).
  destruct tier; cbn [app]; try reflexivity.
Qed.

Lemma getStorageFeatures_unknown_need_witness :
  getStorageFeatures "minimal" enhanced
  = Normal (VArray (generic_storage_features ++ enhanced_storage_features)%list).
Proof.
  apply (getStorageFeatures_unknown_need "minimal" enhanced).
  - cbn [In]. intros H. repeat (destruct H as [H|H]; [discriminate H|]). exact H.
  - reflexivity.
Defined.

(** The estimate for the bracket ["60k-80k"] at complexity ["premium"]. *)
Theorem calculateCost_60k_80k_premium :
  calculateCost "60k-80k" "premium" = "$75,000 - $100,000 CAD".
Proof. vm_compute. reflexivity. Qed.

(** For every budget range that is none of the five brackets and names no
    member of [Object.prototype], the estimate at complexity ["high"] is
    the default bracket's. *)
Theorem calculateCost_unknown_bracket_high (budgetRange : string) :
  ~ In budgetRange [ "25k-40k"; "40k-60k"; "60k-80k"; "80k-100k"; "100k-plus" ] ->
  inherited budgetRange = false ->
  calculateCost budgetRange "high" = "$35,000 - $50,000 CAD".
Proof.
  intros Hk Hi. unfold calculateCost, get_or.
  rewrite (get_absent budgetMultipliers budgetRange Hk Hi).
  vm_compute. reflexivity.
Qed.

Lemma calculateCost_unknown_bracket_high_witness :
  calculateCost "15k-25k" "high" = "$35,000 - $50,000 CAD".
Proof.
  apply (calculateCost_unknown_bracket_high "15k-25k").
  - cbn [In]. intros H. repeat (destruct H as [H|H]; [discriminate H|]). exact H.
  - reflexivity.
Defined.

(** For arguments that name no member of [Object.prototype], the estimate
    is the bracket's two amounts (the default bracket for an unknown
    range), each multiplied by the multiplier of the complexity (0.85,
    1.00, 1.25; 1.00 for an unknown one) and rounded to the nearest
    integer, written with thousands separators between ["$"] and
    [" CAD"]. *)
Theorem calculateCost_is_scaled_bracket (budgetRange complexity : string) :
  inherited budgetRange = false ->
  inherited complexity = false ->
  calculateCost budgetRange complexity
  = "$" ++ toLocaleString
             (RInteger (scaled (fst (bracket_of budgetRange)) (percent_of complexity)))
    ++ " - $"
    ++ toLocaleString
         (RInteger (scaled (snd (bracket_of budgetRange)) (percent_of complexity)))
    ++ " CAD".
Proof. apply calculateCost_scaled. Qed.

Lemma calculateCost_is_scaled_bracket_witness :
  calculateCost "25k-40k" "standard"
  = "$" ++ toLocaleString (RInteger (scaled 25000 85))
    ++ " - $" ++ toLocaleString (RInteger (scaled 40000 85)) ++ " CAD".
Proof.
  apply (calculateCost_is_scaled_bracket "25k-40k" "standard"); reflexivity.
Defined.

(** A text that mentions a window, a small kitchen and limited storage
    has the window feature and the space and storage challenges. *)
Theorem extractors_find_keywords (text : string) :
  includes (toLowerCase text) "window" = true ->
  includes (toLowerCase text) "small" = true ->
  includes (toLowerCase text) "storage" = true ->
  In "Natural lighting from windows" (extractFeatures text)
  /\ In "Limited space optimization" (extractChallenges text)
  /\ In "Insufficient storage" (extractChallenges text).
Proof.
  intros Hw Hs Ht. unfold extractFeatures, extractChallenges, push. cbv zeta.
  rewrite Hw, Hs, Ht. cbn [orb app].
  repeat match goal with
  | |- context [includes ?s ?k] => destruct (includes s k)
  end; cbn; tauto.
Qed.

Lemma extractors_find_keywords_witness :
  In "Natural lighting from windows"
     (extractFeatures "One window. Small kitchen with limited storage.")
  /\ In "Limited space optimization"
        (extractChallenges "One window. Small kitchen with limited storage.")
  /\ In "Insufficient storage"
        (extractChallenges "One window. Small kitchen with limited storage.").
Proof.
  apply (extractors_find_keywords "One window. Small kitchen with limited storage.");
    vm_compute; reflexivity.
Defined.

(** * Further properties *)

(** ** The HTTP layer *)

Section HttpFacts.

Lemma array_includes_In (list : list string) (x : string) :
  array_includes list x = true <-> In x list.
Proof.
  unfold array_includes. rewrite existsb_exists. split.
  - intros (y & Hy & E). apply String.eqb_eq in E. now subst.
  - intros H. exists x. split; [assumption | apply String.eqb_refl].
Qed.

Lemma allow_origin_header (origin : option string) :
  own_property (corsHeaders origin) "Access-Control-Allow-Origin"
  = Some match origin with
         | Some o => if array_includes ALLOWED_ORIGINS o then o
                     else "https://urbanwoodspace.com"
         | None => "https://urbanwoodspace.com"
         end.
Proof.
  destruct origin as [o|]; [|reflexivity].
  unfold corsHeaders. cbn [own_property]. rewrite String.eqb_refl.
  destruct (array_includes ALLOWED_ORIGINS o) eqn:E.
  - apply array_includes_In in E. cbn [ALLOWED_ORIGINS In] in E.
    destruct E as [<-|[<-|[<-|[]]]]; reflexivity.
  - rewrite andb_false_r. reflexivity.
Qed.

Variable OPENAI_API_KEY : option string.
Variable request : Request.

(** Past the checks, the response is the one of the action's branch. *)
Lemma POST_past_checks (vision : VisionOutcome) (synthesize : nat -> SynthesisOutcome) :
  upload_ok OPENAI_API_KEY request = true ->
  exists image,
    POST OPENAI_API_KEY request vision synthesize
    = if strictly_equals (action_of request) "analyze" then
        match vision with
        | VisionRaises _ => generic_failure request
        | VisionResponds content =>
            {| status := 200;
               headers := corsHeaders (origin request);
               body := AnalysisBody
                         (spaceAnalysis (or_else content "Analysis not available"))
                         (or_else content "Analysis not available") |}
        end
      else if strictly_equals (action_of request) "generate" then
        match contact_of request with
        | Some ContactLogged =>
            match preferences_of request with
            | Some (PreferencesTyped preferences) =>
                match generate preferences
                        ("data:" ++ type image ++ ";base64," ++ base64 image)
                        synthesize with
                | Generated designs stats message =>
                    {| status := 200;
                       headers := corsHeaders (origin request);
                       body := DesignsBody designs stats message |}
                | Failed _ _ => generic_failure request
                end
            | Some (PreferencesUntyped run) =>
                match run synthesize with
                | RunAnswers designs stats message =>
                    {| status := 200;
                       headers := corsHeaders (origin request);
                       body := DesignsBody designs stats message |}
                | RunRaises => generic_failure request
                end
            | _ => generic_failure request
            end
        | _ => generic_failure request
        end
      else {| status := 400;
              headers := corsHeaders (origin request);
              body := ErrorBody "Invalid action" |}.
Proof.
  unfold upload_ok, POST, action_of, preferences_of, contact_of, generic_failure.
  cbn [checkRateLimit allowed negb].
  destruct (form request) as [formData|]; [|discriminate]. cbn [bind].
  destruct (form_image formData) as [|text|image]; [discriminate | discriminate |].
  intros H. apply andb_true_iff in H as [H Htype].
  apply andb_true_iff in H as [Hkey Hsize].
  exists image. cbn [bind]. rewrite Hkey, Htype. cbn [negb].
  replace (20 * 1024 * 1024 <? size image)%N with false
    by (symmetry; apply N.ltb_ge; apply N.leb_le in Hsize; exact Hsize).
  destruct (strictly_equals (form_action formData) "analyze").
  - destruct vision; reflexivity.
  - destruct (strictly_equals (form_action formData) "generate"); [|reflexivity].
    destruct (form_contact formData);
      [destruct (form_preferences formData) as [|p|run]; reflexivity|].
    destruct (form_preferences formData) as [|p|run]; cbn [bind]; try reflexivity.
    + destruct (generate _ _ _); reflexivity.
    + destruct (run synthesize); reflexivity.
Qed.

(** Short of the checks, the response is an error that no capability
    has a part in. *)
Lemma POST_short_of_checks (vision : VisionOutcome) (synthesize : nat -> SynthesisOutcome) :
  upload_ok OPENAI_API_KEY request = false ->
  exists code error,
    POST OPENAI_API_KEY request vision synthesize
    = {| status := code; headers := corsHeaders (origin request); body := ErrorBody error |}
    /\ (code = 400 \/ code = 500)
    /\ forall vision' synthesize',
         POST OPENAI_API_KEY request vision' synthesize'
         = POST OPENAI_API_KEY request vision synthesize.
Proof.
  unfold upload_ok, POST. cbn [checkRateLimit allowed negb].
  destruct (form request) as [formData|]; cbn [bind].
  2:{ intros _. do 2 eexists. split; [reflexivity|]. split; [now right | reflexivity]. }
  destruct (form_image formData) as [|text|image].
  1:{ intros _. do 2 eexists. split; [reflexivity|]. split; [now left | reflexivity]. }
  1:{ intros _. destruct (truthy text); cbn [negb].
      - destruct (match OPENAI_API_KEY with Some key => truthy key | None => false end);
          cbn [negb]; do 2 eexists;
          (split; [reflexivity|]); (split; [now right | reflexivity]).
      - do 2 eexists. split; [reflexivity|]. split; [now left | reflexivity]. }
  destruct (match OPENAI_API_KEY with Some key => truthy key | None => false end);
    cbn [negb andb].
  2:{ intros _. do 2 eexists. split; [reflexivity|]. split; [now right | reflexivity]. }
  destruct (size image <=? 20971520)%N eqn:Hsize; cbn [andb].
  - replace (20 * 1024 * 1024 <? size image)%N with false
      by (symmetry; apply N.ltb_ge; apply N.leb_le in Hsize; exact Hsize).
    intros ->. cbn [negb].
    do 2 eexists. split; [reflexivity|]. split; [now left | reflexivity].
  - replace (20 * 1024 * 1024 <? size image)%N with true
      by (symmetry; apply N.ltb_lt; apply N.leb_gt in Hsize; exact Hsize).
    intros _. do 2 eexists. split; [reflexivity|]. split; [now left | reflexivity].
Qed.

End HttpFacts.

Section ImageIndependence.

Variable preferences : Preferences.
Variables imageUrl imageUrl' : string.

Lemma attempt_ignores_image (v : DesignVariation) (outcome : SynthesisOutcome) :
  attempt v preferences imageUrl outcome = attempt v preferences imageUrl' outcome.
Proof. reflexivity. Qed.

Lemma generate_loop_ignores_image (synthesize : nat -> SynthesisOutcome)
    (designVariations : list DesignVariation) :
  forall index state,
    generate_loop preferences imageUrl synthesize index designVariations state
    = generate_loop preferences imageUrl' synthesize index designVariations state.
Proof.
  induction designVariations as [|v rest IH]; intros index state; cbn [generate_loop].
  - reflexivity.
  - rewrite IH. reflexivity.
Qed.

Lemma generate_ignores_image (synthesize : nat -> SynthesisOutcome) :
  generate preferences imageUrl synthesize = generate preferences imageUrl' synthesize.
Proof.
  unfold generate. destruct (createDesignVariations preferences); cbn [bind].
  - now rewrite generate_loop_ignores_image.
  - reflexivity.
Qed.

End ImageIndependence.

(** Whatever the [Origin] header, the allowed origin the route answers
    with is one of [ALLOWED_ORIGINS]: the request's origin when it is
    listed, the first listed origin otherwise (no header, an empty one, or
    an origin that is not listed). *)
Theorem corsHeaders_origin_is_listed (origin : option string) :
  exists answered,
    own_property (corsHeaders origin) "Access-Control-Allow-Origin" = Some answered
    /\ In answered ALLOWED_ORIGINS
    /\ (forall o, origin = Some o -> In o ALLOWED_ORIGINS -> answered = o)
    /\ ((forall o, origin = Some o -> ~ In o ALLOWED_ORIGINS) ->
        answered = "https://urbanwoodspace.com").
Proof.
  eexists. split; [apply allow_origin_header|].
  destruct origin as [o|].
  - destruct (array_includes ALLOWED_ORIGINS o) eqn:E.
    + apply array_includes_In in E. split; [exact E|]. split.
      * now intros o' [= <-].
      * intros H. destruct (H o eq_refl E).
    + split; [now left|]. split; [|reflexivity].
      intros o' [= <-] Hin. apply array_includes_In in Hin. congruence.
  - split; [now left|]. split; [discriminate | reflexivity].
Qed.

(** Every response of [POST] carries the CORS headers of the request's
    origin and has status 200, 400 or 500, never 429: the rate limiter
    allows every request.  The body says [success: true] exactly when the
    status is 200. *)
Theorem POST_status_and_headers (OPENAI_API_KEY : option string) (request : Request)
    (vision : VisionOutcome) (synthesize : nat -> SynthesisOutcome) :
  let response := POST OPENAI_API_KEY request vision synthesize in
  headers response = corsHeaders (origin request)
  /\ (status response = 200 \/ status response = 400 \/ status response = 500)
  /\ (success (body response) = true <-> status response = 200).
Proof.
  cbv zeta. destruct (upload_ok OPENAI_API_KEY request) eqn:Hok.
  - destruct (POST_past_checks OPENAI_API_KEY request vision synthesize Hok) as [image ->].
    destruct (strictly_equals (action_of request) "analyze").
    { destruct vision; cbn; intuition congruence. }
    destruct (strictly_equals (action_of request) "generate").
    2:{ cbn; intuition congruence. }
    destruct (contact_of request) as [[|]|]; try (cbn; intuition congruence).
    destruct (preferences_of request) as [[|p|run]|];
      try (cbn; intuition congruence).
    + destruct (generate _ _ _); cbn; intuition congruence.
    + destruct (run synthesize); cbn; intuition congruence.
  - destruct (POST_short_of_checks OPENAI_API_KEY request vision synthesize Hok)
      as (code & error & -> & [-> | ->] & _); cbn; intuition congruence.
Qed.

(** When the upload does not pass the checks (the body is not form data,
    no image file, no API key, more than 20 MiB, or a media type that does
    not start with ["image/"]), the response is an error with status 400 or
    500 and is the same whatever the two capabilities would do: neither is
    consulted. *)
Theorem POST_bad_upload_consults_nothing (OPENAI_API_KEY : option string)
    (request : Request) (vision vision' : VisionOutcome)
    (synthesize synthesize' : nat -> SynthesisOutcome) :
  upload_ok OPENAI_API_KEY request = false ->
  POST OPENAI_API_KEY request vision synthesize
  = POST OPENAI_API_KEY request vision' synthesize'
  /\ success (body (POST OPENAI_API_KEY request vision synthesize)) = false
  /\ (status (POST OPENAI_API_KEY request vision synthesize) = 400
      \/ status (POST OPENAI_API_KEY request vision synthesize) = 500).
Proof.
  intros Hok.
  destruct (POST_short_of_checks OPENAI_API_KEY request vision synthesize Hok)
    as (code & error & E & Hcode & Hsame).
  split; [symmetry; apply Hsame|]. rewrite E. split; [reflexivity | exact Hcode].
Qed.

Lemma POST_bad_upload_consults_nothing_witness :
  POST (Some "sk-test") oversized_request (VisionResponds (Some "A bright kitchen."))
       sample_synthesize
  = POST (Some "sk-test") oversized_request (VisionRaises "timeout") (fun _ => Responds None)
  /\ success (body (POST (Some "sk-test") oversized_request
                      (VisionResponds (Some "A bright kitchen.")) sample_synthesize)) = false
  /\ (status (POST (Some "sk-test") oversized_request
                (VisionResponds (Some "A bright kitchen.")) sample_synthesize) = 400
      \/ status (POST (Some "sk-test") oversized_request
                   (VisionResponds (Some "A bright kitchen.")) sample_synthesize) = 500).
Proof.
  apply (POST_bad_upload_consults_nothing (Some "sk-test") oversized_request).
  reflexivity.
Defined.

(** When the upload passes the checks (an image of exactly 20 MiB does)
    and the action is neither ["analyze"] nor ["generate"] (or is
    missing), the response is 400 ["Invalid action"], whatever the two
    capabilities would do. *)
Theorem POST_invalid_action (OPENAI_API_KEY : option string) (request : Request)
    (vision : VisionOutcome) (synthesize : nat -> SynthesisOutcome) :
  upload_ok OPENAI_API_KEY request = true ->
  action_of request <> Some "analyze" ->
  action_of request <> Some "generate" ->
  POST OPENAI_API_KEY request vision synthesize
  = {| status := 400;
       headers := corsHeaders (origin request);
       body := ErrorBody "Invalid action" |}.
Proof.
  intros Hok Ha Hg.
  destruct (POST_past_checks OPENAI_API_KEY request vision synthesize Hok) as [image ->].
  assert (Hne : forall s, action_of request <> Some s ->
                          strictly_equals (action_of request) s = false).
  { intros s Hs. destruct (action_of request) as [a|]; [|reflexivity].
    cbn. apply String.eqb_neq. congruence. }
  now rewrite (Hne _ Ha), (Hne _ Hg).
Qed.

Lemma POST_invalid_action_witness :
  POST (Some "sk-test") (sample_request "Analyze") (VisionResponds None) sample_synthesize
  = {| status := 400;
       headers := corsHeaders (origin (sample_request "Analyze"));
       body := ErrorBody "Invalid action" |}.
Proof.
  apply (POST_invalid_action (Some "sk-test") (sample_request "Analyze"));
    [reflexivity | discriminate | discriminate].
Defined.

(** ** Lines, case and trimming *)

Section LineFacts.

Lemma length_append (a b : string) :
  String.length (a ++ b) = String.length a + String.length b.
Proof. induction a as [|c a IH]; cbn; [reflexivity | now rewrite IH]. Qed.

Lemma append_same_length (a a' b b' : string) :
  String.length a = String.length a' -> a ++ b = a' ++ b' -> a = a' /\ b = b'.
Proof.
  revert a'; induction a as [|c a IH]; intros [|c' a'] Hlen H; try discriminate Hlen.
  - now split.
  - cbn in H. injection H as -> H. injection Hlen as Hlen.
    destruct (IH _ Hlen H) as [-> ->]. now split.
Qed.

Lemma lower_char_idempotent (c : ascii) : lower_char (lower_char c) = lower_char c.
Proof. destruct c as [[] [] [] [] [] [] [] []]; reflexivity. Qed.

Lemma toLowerCase_idempotent (s : string) : toLowerCase (toLowerCase s) = toLowerCase s.
Proof.
  induction s as [|c s IH]; cbn; [reflexivity|].
  now rewrite lower_char_idempotent, IH.
Qed.

Lemma toLowerCase_append (a b : string) :
  toLowerCase (a ++ b) = toLowerCase a ++ toLowerCase b.
Proof. induction a as [|c a IH]; cbn; [reflexivity | now rewrite IH]. Qed.

Lemma toLowerCase_length (s : string) : String.length (toLowerCase s) = String.length s.
Proof. induction s as [|c s IH]; cbn; [reflexivity | now rewrite IH]. Qed.

(** A part of a lower-case string is lower-case. *)
Lemma lower_within (before inner after : string) :
  toLowerCase (before ++ inner ++ after) = before ++ inner ++ after ->
  toLowerCase inner = inner.
Proof.
  rewrite !toLowerCase_append. intros H.
  apply append_same_length in H as [_ H]; [|apply toLowerCase_length].
  apply append_same_length in H as [H _]; [exact H | apply toLowerCase_length].
Qed.

Lemma includes_nonempty (s k : string) :
  includes s k = true -> k <> "" -> s <> "".
Proof. intros H Hk ->. destruct k; [now apply Hk | discriminate H]. Qed.

Lemma trimStart_within (s : string) : exists before, s = before ++ trimStart s.
Proof.
  induction s as [|c s [before IH]]; [now exists ""|].
  cbn. destruct (is_space c).
  - exists (String c before). cbn. now rewrite <- IH.
  - now exists "".
Qed.

Lemma trimEnd_within (s : string) : exists after, s = trimEnd s ++ after.
Proof.
  induction s as [|c s [after IH]]; [now exists ""|].
  cbn. destruct (trimEnd s) as [|d t] eqn:E.
  - destruct (is_space c).
    + exists (String c s). reflexivity.
    + exists after. cbn. now rewrite IH.
  - exists after. cbn. now rewrite IH.
Qed.

Lemma trim_within (s : string) : exists before after, s = before ++ trim s ++ after.
Proof.
  unfold trim. destruct (trimStart_within s) as [before E].
  destruct (trimEnd_within (trimStart s)) as [after E'].
  exists before, after. now rewrite <- E', <- E.
Qed.

Lemma word_first (c : ascii) (k : string) :
  word (String c k) = true -> is_space c = false.
Proof.
  unfold word. cbn. intros H. apply andb_true_iff in H as [H _].
  now apply negb_true_iff in H.
Qed.

Lemma includes_trimStart (s k : string) :
  word k = true -> includes s k = true -> includes (trimStart s) k = true.
Proof.
  intros Hk. induction s as [|c s IH]; intros H; [exact H|].
  cbn [trimStart]. destruct (is_space c) eqn:Ec; [|exact H].
  apply IH. rewrite includes_unfold in H. apply orb_true_iff in H as [H|H]; [|exact H].
  destruct k as [|a k]; [discriminate Hk|].
  cbn in H. apply andb_true_iff in H as [H _]. apply Ascii.eqb_eq in H. subst a.
  rewrite (word_first _ _ Hk) in Ec. discriminate Ec.
Qed.

Lemma startsWith_trimEnd (k s : string) :
  all_chars (fun c => negb (is_space c)) k = true ->
  startsWith s k = true -> startsWith (trimEnd s) k = true.
Proof.
  revert s; induction k as [|a k IH]; intros s Hk H; [reflexivity|].
  destruct s as [|b s]; [discriminate H|].
  cbn in Hk, H. apply andb_true_iff in Hk as [Ha Hk]. apply andb_true_iff in H as [Hab H].
  apply Ascii.eqb_eq in Hab. subst b. apply negb_true_iff in Ha.
  specialize (IH s Hk H). cbn [trimEnd].
  destruct (trimEnd s) as [|d t] eqn:E.
  - rewrite Ha. cbn. rewrite Ascii.eqb_refl.
    destruct k; [reflexivity | cbn in IH; discriminate IH].
  - cbn. rewrite Ascii.eqb_refl. exact IH.
Qed.

Lemma includes_trimEnd (s k : string) :
  word k = true -> includes s k = true -> includes (trimEnd s) k = true.
Proof.
  intros Hk. pose proof Hk as Hw. unfold word in Hw.
  apply andb_true_iff in Hw as [Hne Hall]. apply negb_true_iff, String.eqb_neq in Hne.
  induction s as [|c s IH]; intros H; [exact H|].
  rewrite includes_unfold in H. apply orb_true_iff in H as [H|H].
  - rewrite includes_unfold. now rewrite (startsWith_trimEnd _ _ Hall H).
  - specialize (IH H). cbn [trimEnd].
    destruct (trimEnd s) as [|d t] eqn:E.
    + exfalso. now apply (includes_nonempty _ _ IH).
    + rewrite includes_unfold, IH. apply orb_true_r.
Qed.

Lemma includes_trim (s k : string) :
  word k = true -> includes s k = true -> includes (trim s) k = true.
Proof. intros Hk H. now apply includes_trimEnd, includes_trimStart. Qed.

Lemma split_lines_nonempty (s : string) : split_lines s <> [].
Proof.
  destruct s as [|c s]; cbn [split_lines]; [discriminate|].
  destruct (Ascii.eqb c newline); [discriminate|].
  destruct (split_lines s); discriminate.
Qed.

Lemma word_no_newline (c : ascii) (k : string) :
  word (String c k) = true -> Ascii.eqb c newline = false.
Proof.
  intros H. apply word_first in H. destruct (Ascii.eqb_spec c newline) as [->|]; auto.
Qed.

(** The first line starts with every word the text starts with. *)
Lemma startsWith_first_line (k s line : string) (others : list string) :
  all_chars (fun c => negb (is_space c)) k = true ->
  startsWith s k = true ->
  split_lines s = line :: others ->
  startsWith line k = true.
Proof.
  revert s line others; induction k as [|a k IH]; intros s line others Hk H E;
    [reflexivity|].
  destruct s as [|b s]; [discriminate H|].
  cbn in Hk, H. apply andb_true_iff in Hk as [Ha Hk]. apply andb_true_iff in H as [Hab H].
  apply Ascii.eqb_eq in Hab. subst b.
  cbn [split_lines] in E.
  assert (Hnl : Ascii.eqb a newline = false).
  { destruct (Ascii.eqb_spec a newline) as [->|]; [discriminate Ha | reflexivity]. }
  rewrite Hnl in E.
  destruct (split_lines s) as [|l ls] eqn:El; [now apply split_lines_nonempty in El|].
  injection E as <- _. cbn. rewrite Ascii.eqb_refl. now apply (IH s l ls).
Qed.

(** A word the text includes is included in one of its lines. *)
Lemma includes_some_line (s k : string) :
  word k = true -> includes s k = true ->
  exists line, In line (split_lines s) /\ includes line k = true.
Proof.
  intros Hk. pose proof Hk as Hw. unfold word in Hw.
  apply andb_true_iff in Hw as [Hne Hall].
  induction s as [|c s IH]; intros H.
  - exists "". split; [now left | exact H].
  - rewrite includes_unfold in H. apply orb_true_iff in H as [H|H].
    + destruct (split_lines (String c s)) as [|line others] eqn:E;
        [now apply split_lines_nonempty in E|].
      exists line. split; [now left|].
      rewrite includes_unfold, (startsWith_first_line _ _ _ _ Hall H E). reflexivity.
    + destruct (IH H) as (line & Hin & Hline). cbn [split_lines].
      destruct (Ascii.eqb c newline).
      * exists line. split; [now right | exact Hline].
      * destruct (split_lines s) as [|l ls] eqn:E; [destruct Hin|].
        destruct Hin as [<- | Hin].
        -- exists (String c l). split; [now left|].
           rewrite includes_unfold, Hline. apply orb_true_r.
        -- exists line. split; [now right | exact Hline].
Qed.

End LineFacts.

(** ** The analysis extractors on every text *)

Section SearchFacts.

Lemma find_same {A : Type} (f g : A -> bool) (l : list A) :
  (forall x, f x = g x) -> find f l = find g l.
Proof.
  intros H. induction l as [|x l IH]; cbn; [reflexivity|]. now rewrite H, IH.
Qed.

Lemma line_keywords_words (type k : string) :
  In k (line_keywords type) -> word k = true.
Proof.
  unfold line_keywords.
  destruct (type =? "dimensions");
  [| destruct (type =? "layout"); [| destruct (type =? "lighting") ]];
  cbn [In]; intros H;
  repeat (destruct H as [<-|H]; [reflexivity|]); destruct H.
Qed.

(** The three searches of [extractFromAnalysis] are one search, by the
    keywords of the type. *)
Lemma extractFromAnalysis_search (text type : string) :
  extractFromAnalysis text type
  = match find (fun line => mentions line (line_keywords type))
               (split_lines (toLowerCase text)) with
    | Some line => if truthy line then Some (trim line) else None
    | None => None
    end.
Proof.
  unfold extractFromAnalysis, line_keywords. cbv zeta.
  destruct (type =? "dimensions");
  [| destruct (type =? "layout"); [| destruct (type =? "lighting") ]].
  4:{ rewrite find_none_on; reflexivity. }
  all: erewrite find_same; [reflexivity|];
    intros line; unfold mentions; cbn [existsb];
    rewrite orb_false_r, <- ?orb_assoc; reflexivity.
Qed.

Lemma search_result (keywords : list string) (lowered : string) :
  (forall k, In k keywords -> word k = true) ->
  match find (fun line => mentions line keywords) (split_lines lowered) with
  | Some line =>
      In line (split_lines lowered)
      /\ exists k, In k keywords /\ includes line k = true
  | None => forall k, In k keywords -> includes lowered k = false
  end.
Proof.
  intros Hwords.
  destruct (find _ _) as [line|] eqn:E.
  - apply find_some in E as [Hin Hm]. split; [exact Hin|].
    unfold mentions in Hm. apply existsb_exists in Hm. exact Hm.
  - intros k Hk. destruct (includes lowered k) eqn:Ek; [|reflexivity].
    destruct (includes_some_line _ _ (Hwords k Hk) Ek) as (line & Hin & Hline).
    pose proof (find_none _ _ E line Hin) as Hm. cbn in Hm.
    unfold mentions in Hm.
    assert (existsb (includes line) keywords = true) as Hx
      by (apply existsb_exists; eauto).
    congruence.
Qed.

End SearchFacts.

(** For every text and type, [extractFromAnalysis] finds a line exactly
    when the lower-cased text includes a keyword of the type.  The line it
    returns is not empty, is lower-case, is a part of the lower-cased text
    and includes one of the keywords. *)
Theorem extractFromAnalysis_finds_keyword_line (text type : string) :
  match extractFromAnalysis text type with
  | Some found =>
      found <> ""
      /\ toLowerCase found = found
      /\ includes (toLowerCase text) found = true
      /\ exists k, In k (line_keywords type) /\ includes found k = true
  | None =>
      forall k, In k (line_keywords type) -> includes (toLowerCase text) k = false
  end.
Proof.
  rewrite extractFromAnalysis_search.
  pose proof (search_result (line_keywords type) (toLowerCase text)
                (line_keywords_words type)) as H.
  destruct (find _ _) as [line|]; [|exact H].
  destruct H as (Hin & k & Hk & Hline).
  pose proof (line_keywords_words type k Hk) as Hword.
  assert (Hkne : k <> "").
  { intros ->. discriminate Hword. }
  assert (Htruthy : truthy line = true).
  { unfold truthy. apply negb_true_iff, String.eqb_neq.
    exact (includes_nonempty _ _ Hline Hkne). }
  rewrite Htruthy.
  pose proof (includes_trim _ _ Hword Hline) as Htrim.
  destruct (split_lines_within _ _ Hin) as (b1 & a1 & E1).
  destruct (trim_within line) as (b2 & a2 & E2).
  assert (Ewhole : toLowerCase text = (b1 ++ b2) ++ trim line ++ (a2 ++ a1)).
  { rewrite E1 at 1. rewrite E2 at 1. now rewrite !append_assoc_r. }
  split; [exact (includes_nonempty _ _ Htrim Hkne)|].
  split.
  { apply (lower_within (b1 ++ b2) (trim line) (a2 ++ a1)).
    rewrite <- Ewhole. apply toLowerCase_idempotent. }
  split; [rewrite Ewhole; apply includes_intro|].
  exists k. split; assumption.
Qed.

(** The three text fields of the analysis hold their default exactly
    when the lower-cased text includes none of the field's keywords:
    [dimension], [size], [feet], ['], [x] for the dimensions; [layout],
    [galley], [l-shaped], [u-shaped], [island] for the layout; [light],
    [window], [bright] for the lighting. *)
Theorem analysis_text_fields_default_iff (text : string) :
  (roomDimensions (spaceAnalysis text) = "Approximately 10' x 12' kitchen space"
   <-> forall k, In k [ "dimension"; "size"; "feet"; "'"; "x" ] ->
                 includes (toLowerCase text) k = false)
  /\ (layoutType (spaceAnalysis text) = "Standard kitchen layout"
      <-> forall k, In k [ "layout"; "galley"; "l-shaped"; "u-shaped"; "island" ] ->
                    includes (toLowerCase text) k = false)
  /\ (lightingSituation (spaceAnalysis text) = "Natural light from windows"
      <-> forall k, In k [ "light"; "window"; "bright" ] ->
                    includes (toLowerCase text) k = false).
Proof.
  assert (Hfield : forall type fallback,
             String.eqb (toLowerCase fallback) fallback = false ->
             (or_else (extractFromAnalysis text type) fallback = fallback
              <-> forall k, In k (line_keywords type) ->
                            includes (toLowerCase text) k = false)).
  { intros type fallback Hcase. apply String.eqb_neq in Hcase.
    pose proof (extractFromAnalysis_finds_keyword_line text type) as H.
    destruct (extractFromAnalysis text type) as [found|]; cbn [or_else].
    - destruct H as (Hne & Hlow & Hin & k & Hk & Hfound).
      assert (Ht : truthy found = true)
        by (unfold truthy; now apply negb_true_iff, String.eqb_neq).
      rewrite Ht. split.
      + intros ->. contradiction.
      + intros Hnone. exfalso.
        destruct (includes_inv _ _ Hin) as (b & a & Eb).
        assert (includes (toLowerCase text) k = true) as Hyes
          by (rewrite Eb; now apply includes_within).
        rewrite (Hnone k Hk) in Hyes. discriminate Hyes.
    - split; [intros _; exact H | reflexivity]. }
  split; [exact (Hfield "dimensions" "Approximately 10' x 12' kitchen space" eq_refl)|].
  split; [exact (Hfield "layout" "Standard kitchen layout" eq_refl)
         | exact (Hfield "lighting" "Natural light from windows" eq_refl)].
Qed.

Section ListFacts.

Ltac branches :=
  repeat match goal with
  | |- context [includes ?s ?k] => destruct (includes s k)
  end.

Ltac tidy_list :=
  unfold tidy; cbn;
  split; [discriminate|]; split; [lia|];
  repeat constructor; cbn; intuition discriminate.

Lemma extractFeatures_tidy (text : string) : tidy (extractFeatures text).
Proof. unfold extractFeatures, push. cbv zeta. branches; tidy_list. Qed.

Lemma extractChallenges_tidy (text : string) : tidy (extractChallenges text).
Proof. unfold extractChallenges, push. cbv zeta. branches; tidy_list. Qed.

Lemma extractRecommendedStyles_tidy (text : string) :
  tidy (extractRecommendedStyles text)
  /\ incl (extractRecommendedStyles text)
          [ "Contemporary"; "Traditional"; "Transitional"; "Farmhouse" ].
Proof.
  unfold extractRecommendedStyles, push. cbv zeta.
  branches; (split; [tidy_list|]); intros x Hx; cbn in Hx |- *; tauto.
Qed.

Lemma or_else_populated (found : option string) (fallback : string) :
  fallback <> "" -> or_else found fallback <> "".
Proof.
  intros H. destruct found as [s|]; cbn; [|exact H].
  destruct (truthy s) eqn:E; [|exact H].
  unfold truthy in E. now apply negb_true_iff, String.eqb_neq in E.
Qed.

End ListFacts.

(** For every text, no field of the analysis is empty, and its three
    keyword-driven lists (features, challenges, recommended styles) have
    between one and four items, none repeated.  The recommended styles are
    always among Contemporary, Traditional, Transitional and Farmhouse. *)
Theorem spaceAnalysis_always_populated (text : string) :
  populated (spaceAnalysis text)
  /\ tidy (existingFeatures (spaceAnalysis text))
  /\ tidy (challenges (spaceAnalysis text))
  /\ tidy (recommendedStyles (spaceAnalysis text))
  /\ incl (recommendedStyles (spaceAnalysis text))
          [ "Contemporary"; "Traditional"; "Transitional"; "Farmhouse" ].
Proof.
  pose proof (extractFeatures_tidy text) as Hf.
  pose proof (extractChallenges_tidy text) as Hc.
  destruct (extractRecommendedStyles_tidy text) as [Hr Hi].
  split; [|split; [exact Hf|]; split; [exact Hc|]; split; [exact Hr | exact Hi]].
  unfold populated. cbn [spaceAnalysis roomDimensions layoutType existingFeatures
    challenges opportunities lightingSituation architecturalElements
    recommendedStyles spaceOptimization].
  repeat split; try (apply or_else_populated; discriminate);
    try apply Hf; try apply Hc; try apply Hr; discriminate.
Qed.

(** ** The branches of [POST] *)

Section BranchFacts.

Lemma strictly_equals_Some (a : option string) (s : string) :
  a = Some s -> strictly_equals a s = true.
Proof. intros ->. apply String.eqb_refl. Qed.

Lemma generate_counts (preferences : Preferences) (imageUrl : string)
    (synthesize : nat -> SynthesisOutcome) :
  inherited (storageNeeds preferences) = false ->
  exists designs stats,
    generate preferences imageUrl synthesize
    = Generated designs stats (generated_message (imagesGenerated stats))
    /\ length designs = 3
    /\ imagesGenerated stats
       = length (filter (fun outcome => negb (fails outcome))
                        [synthesize 0; synthesize 1; synthesize 2])
    /\ imagesFailed stats
       = length (filter fails [synthesize 0; synthesize 1; synthesize 2]).
Proof.
  intros Hi.
  destruct (createDesignVariations_built _ Hi)
    as (v1 & v2 & v3 & s1 & s2 & s3 & E & H1 & H2 & H3 & _).
  rewrite (generate_built _ _ _ _ E).
  exists (pushed_designs preferences imageUrl synthesize 0 [v1; v2; v3]).
  exists {| imagesGenerated := successes preferences imageUrl synthesize 0 [v1; v2; v3];
            imagesFailed :=
              length [v1; v2; v3]
              - successes preferences imageUrl synthesize 0 [v1; v2; v3] |}.
  split; [reflexivity|].
  cbn [pushed_designs successes length imagesGenerated imagesFailed].
  rewrite !succeeds_array by (rewrite ?H1, ?H2, ?H3; reflexivity).
  cbn [filter].
  destruct (fails (synthesize 0)), (fails (synthesize 1)), (fails (synthesize 2));
    repeat split; reflexivity.
Qed.

End BranchFacts.

(** With an upload that passes the checks and the action ["analyze"]:
    an error of the vision call is not recovered, the response is the
    generic failure; otherwise the response is 200 with the analysis of
    the answer's text, which has no empty field, and an answer without
    text stands as ["Analysis not available"], whose analysis is all
    defaults. *)
Theorem POST_analyze (OPENAI_API_KEY : option string) (request : Request)
    (vision : VisionOutcome) (synthesize : nat -> SynthesisOutcome) :
  upload_ok OPENAI_API_KEY request = true ->
  action_of request = Some "analyze" ->
  match vision with
  | VisionRaises _ =>
      POST OPENAI_API_KEY request vision synthesize = generic_failure request
  | VisionResponds content =>
      let text := or_else content "Analysis not available" in
      POST OPENAI_API_KEY request vision synthesize
      = {| status := 200;
           headers := corsHeaders (origin request);
           body := AnalysisBody (spaceAnalysis text) text |}
      /\ populated (spaceAnalysis text)
      /\ (content = None \/ content = Some "" ->
          text = "Analysis not available" /\ spaceAnalysis text = default_analysis)
  end.
Proof.
  intros Hok Ha.
  destruct (POST_past_checks OPENAI_API_KEY request vision synthesize Hok) as [image ->].
  rewrite (strictly_equals_Some _ _ Ha).
  destruct vision as [e|content]; [reflexivity|]. cbv zeta.
  split; [reflexivity|]. split; [apply spaceAnalysis_always_populated|].
  intros [-> | ->]; split; vm_compute; reflexivity.
Qed.

Lemma POST_analyze_witness :
  let text := or_else None "Analysis not available" in
  POST (Some "sk-test") (sample_request "analyze") (VisionResponds None) sample_synthesize
  = {| status := 200;
       headers := corsHeaders (origin (sample_request "analyze"));
       body := AnalysisBody (spaceAnalysis text) text |}
  /\ populated (spaceAnalysis text)
  /\ (@None string = None \/ None = Some "" ->
      text = "Analysis not available" /\ spaceAnalysis text = default_analysis).
Proof.
  apply (POST_analyze (Some "sk-test") (sample_request "analyze") (VisionResponds None)
           sample_synthesize); reflexivity.
Defined.

(** With an upload that passes the checks, the action ["generate"],
    preferences that parse to an object whose six fields are strings, a
    contact whose parsing and logging completes, and a [storageNeeds] that
    names no member of [Object.prototype], the response is 200 with three
    designs whatever the synthesis calls do, even when all of them fail:
    the counters count the calls that succeeded and failed, and the
    message names the number of successes. *)
Theorem POST_generate_answers_200 (OPENAI_API_KEY : option string) (request : Request)
    (vision : VisionOutcome) (synthesize : nat -> SynthesisOutcome)
    (preferences : Preferences) :
  upload_ok OPENAI_API_KEY request = true ->
  action_of request = Some "generate" ->
  preferences_of request = Some (PreferencesTyped preferences) ->
  contact_of request = Some ContactLogged ->
  inherited (storageNeeds preferences) = false ->
  exists designs stats,
    POST OPENAI_API_KEY request vision synthesize
    = {| status := 200;
         headers := corsHeaders (origin request);
         body := DesignsBody designs stats (generated_message (imagesGenerated stats)) |}
    /\ length designs = 3
    /\ imagesGenerated stats
       = length (filter (fun outcome => negb (fails outcome))
                        [synthesize 0; synthesize 1; synthesize 2])
    /\ imagesFailed stats
       = length (filter fails [synthesize 0; synthesize 1; synthesize 2]).
Proof.
  intros Hok Ha Hp Hc Hi.
  destruct (POST_past_checks OPENAI_API_KEY request vision synthesize Hok) as [image ->].
  assert (Hne : strictly_equals (action_of request) "analyze" = false)
    by (rewrite Ha; reflexivity).
  rewrite Hne, (strictly_equals_Some _ _ Ha), Hp, Hc.
  destruct (generate_counts preferences
              ("data:" ++ type image ++ ";base64," ++ base64 image) synthesize Hi)
    as (designs & stats & -> & Hlen & Hg & Hf).
  exists designs, stats. repeat split; assumption.
Qed.

Lemma POST_generate_answers_200_witness :
  exists designs stats,
    POST (Some "sk-test") (sample_request "generate") (VisionRaises "unused")
         failing_synthesize
    = {| status := 200;
         headers := corsHeaders (origin (sample_request "generate"));
         body := DesignsBody designs stats (generated_message (imagesGenerated stats)) |}
    /\ length designs = 3
    /\ imagesGenerated stats
       = length (filter (fun outcome => negb (fails outcome))
                        [failing_synthesize 0; failing_synthesize 1; failing_synthesize 2])
    /\ imagesFailed stats
       = length (filter fails
                        [failing_synthesize 0; failing_synthesize 1; failing_synthesize 2]).
Proof.
  apply (POST_generate_answers_200 (Some "sk-test") (sample_request "generate")
           (VisionRaises "unused") failing_synthesize sample_preferences);
    reflexivity.
Defined.

(** With an upload that passes the checks and the action ["generate"],
    the response is the generic failure, whatever the capabilities would
    do, when the preferences do not parse or parse to [null], when parsing
    or logging the contact raises (it is no JSON, is [null], or has a
    [name] without a string conversion), or when the preferences are six
    strings and [storageNeeds] names a member of [Object.prototype]. *)
Theorem POST_generate_fails_as_a_whole (OPENAI_API_KEY : option string)
    (request : Request) (vision : VisionOutcome) (synthesize : nat -> SynthesisOutcome) :
  upload_ok OPENAI_API_KEY request = true ->
  action_of request = Some "generate" ->
  (preferences_of request = Some PreferencesRaise
   \/ contact_of request = Some ContactRaises
   \/ exists preferences,
        preferences_of request = Some (PreferencesTyped preferences)
        /\ inherited (storageNeeds preferences) = true) ->
  POST OPENAI_API_KEY request vision synthesize = generic_failure request.
Proof.
  intros Hok Ha Hbad.
  destruct (POST_past_checks OPENAI_API_KEY request vision synthesize Hok) as [image ->].
  assert (Hne : strictly_equals (action_of request) "analyze" = false)
    by (rewrite Ha; reflexivity).
  rewrite Hne, (strictly_equals_Some _ _ Ha).
  destruct Hbad as [Hp | [-> | (p & Hp & Hi)]]; [| reflexivity |].
  - rewrite Hp. destruct (contact_of request) as [[|]|]; reflexivity.
  - rewrite Hp. destruct (contact_of request) as [[|]|]; try reflexivity.
    rewrite (generate_raises _ _ _ _ (createDesignVariations_raises _ Hi)). reflexivity.
Qed.

Lemma POST_generate_fails_as_a_whole_witness :
  POST (Some "sk-test") (generate_request PreferencesRaise ContactLogged)
       (VisionRaises "unused") sample_synthesize
  = generic_failure (generate_request PreferencesRaise ContactLogged)
  /\ POST (Some "sk-test")
          (generate_request (PreferencesTyped sample_preferences) ContactRaises)
          (VisionRaises "unused") sample_synthesize
     = generic_failure
         (generate_request (PreferencesTyped sample_preferences) ContactRaises)
  /\ POST (Some "sk-test") prototype_request (VisionRaises "unused") sample_synthesize
     = generic_failure prototype_request.
Proof.
  split; [|split].
  - apply (POST_generate_fails_as_a_whole (Some "sk-test")
             (generate_request PreferencesRaise ContactLogged));
      [reflexivity | reflexivity | left; reflexivity].
  - apply (POST_generate_fails_as_a_whole (Some "sk-test")
             (generate_request (PreferencesTyped sample_preferences) ContactRaises));
      [reflexivity | reflexivity | right; left; reflexivity].
  - apply (POST_generate_fails_as_a_whole (Some "sk-test") prototype_request);
      [reflexivity | reflexivity |].
    right. right. eexists. split; reflexivity.
Defined.

(** The designs do not depend on the photo: with the action
    ["generate"], replacing the image by any other image that passes the
    checks leaves the response unchanged. *)
Theorem POST_generate_ignores_image (OPENAI_API_KEY : option string) (request : Request)
    (image' : UploadedFile) (vision vision' : VisionOutcome)
    (synthesize : nat -> SynthesisOutcome) :
  upload_ok OPENAI_API_KEY request = true ->
  upload_ok OPENAI_API_KEY (with_image request image') = true ->
  action_of request = Some "generate" ->
  POST OPENAI_API_KEY (with_image request image') vision' synthesize
  = POST OPENAI_API_KEY request vision synthesize.
Proof.
  intros Hok Hok' Ha.
  destruct (POST_past_checks OPENAI_API_KEY request vision synthesize Hok) as [image ->].
  destruct (POST_past_checks OPENAI_API_KEY _ vision' synthesize Hok') as [image2 ->].
  assert (Hsame : action_of (with_image request image') = action_of request
                  /\ preferences_of (with_image request image') = preferences_of request
                  /\ contact_of (with_image request image') = contact_of request).
  { unfold action_of, preferences_of, contact_of, with_image. cbn [form].
    destruct (form request); repeat split; reflexivity. }
  destruct Hsame as (-> & -> & ->).
  assert (Hne : strictly_equals (action_of request) "analyze" = false)
    by (rewrite Ha; reflexivity).
  rewrite Hne, (strictly_equals_Some _ _ Ha).
  destruct (contact_of request) as [[|]|]; try reflexivity.
  destruct (preferences_of request) as [[|p|run]|]; try reflexivity.
  rewrite (generate_ignores_image p _ ("data:" ++ type image ++ ";base64," ++ base64 image)).
  reflexivity.
Qed.

Lemma POST_generate_ignores_image_witness :
  POST (Some "sk-test")
       (with_image (sample_request "generate")
          {| size := 1024; type := "image/webp"; base64 := "UklGRg==" |})
       (VisionRaises "unused") sample_synthesize
  = POST (Some "sk-test") (sample_request "generate") (VisionResponds None)
         sample_synthesize.
Proof.
  apply (POST_generate_ignores_image (Some "sk-test") (sample_request "generate"));
    reflexivity.
Defined.

(** ** The loop on any list of variations *)

Section CountFacts.

Variable preferences : Preferences.
Variable imageUrl : string.
Variable synthesize : nat -> SynthesisOutcome.

Lemma pushed_design_statuses (v : DesignVariation) (outcome : SynthesisOutcome) :
  has_status "success" (pushed_design preferences imageUrl v outcome)
  = succeeds preferences imageUrl v outcome
  /\ has_status "failed" (pushed_design preferences imageUrl v outcome)
     = negb (succeeds preferences imageUrl v outcome).
Proof.
  pose proof (pushed_design_shape preferences imageUrl v outcome) as H.
  destruct (succeeds preferences imageUrl v outcome).
  - destruct H as (url & prompt & ->). split; reflexivity.
  - rewrite H. split; reflexivity.
Qed.

Lemma pushed_designs_statuses (designVariations : list DesignVariation) (index : nat) :
  length (filter (has_status "success")
                 (pushed_designs preferences imageUrl synthesize index designVariations))
  = successes preferences imageUrl synthesize index designVariations
  /\ length (filter (has_status "failed")
                    (pushed_designs preferences imageUrl synthesize index designVariations))
     = length designVariations
       - successes preferences imageUrl synthesize index designVariations
  /\ Forall (fun design => has_status "success" design = negb (has_status "failed" design))
            (pushed_designs preferences imageUrl synthesize index designVariations).
Proof.
  revert index. induction designVariations as [|v rest IH]; intros index.
  - repeat split; constructor.
  - destruct (IH (S index)) as (Hs & Hf & Hall).
    pose proof (successes_bound preferences imageUrl synthesize rest (S index)) as Hle.
    destruct (pushed_design_statuses v (synthesize index)) as [Es Ef].
    cbn [pushed_designs successes filter length]. rewrite Es, Ef.
    split; [|split].
    + destruct (succeeds preferences imageUrl v (synthesize index));
        cbn [length negb]; rewrite Hs; lia.
    + destruct (succeeds preferences imageUrl v (synthesize index));
        cbn [length negb]; rewrite Hf; lia.
    + constructor; [|exact Hall]. rewrite Es, Ef. now rewrite negb_involutive.
Qed.

End CountFacts.

(** For every list of variations and every pattern of outcomes, the loop
    pushes one design per variation, each with exactly one of the two
    statuses, and its counters are the numbers of designs with status
    ["success"] and with status ["failed"]. *)
Theorem generate_loop_counters_match_statuses (preferences : Preferences)
    (imageUrl : string) (synthesize : nat -> SynthesisOutcome)
    (designVariations : list DesignVariation) :
  let (designs, stats) :=
    generate_loop preferences imageUrl synthesize 0 designVariations
      ([], {| imagesGenerated := 0; imagesFailed := 0 |}) in
  length designs = length designVariations
  /\ imagesGenerated stats = length (filter (has_status "success") designs)
  /\ imagesFailed stats = length (filter (has_status "failed") designs)
  /\ Forall (fun design => has_status "success" design = negb (has_status "failed" design))
            designs.
Proof.
  rewrite generate_loop_pushes. cbn [app imagesGenerated imagesFailed Nat.add].
  destruct (pushed_designs_statuses preferences imageUrl synthesize designVariations 0)
    as (Hs & Hf & Hall).
  split; [apply pushed_designs_length|]. now rewrite Hs, Hf.
Qed.

(** When the call for a variation with a list of storage features
    answers with a non-empty URL, the design pushed for it holds that URL
    under [generatedImage], unchanged, and under [imagePrompt] the prompt
    composed for the variation. *)
Theorem successful_design_holds_url_and_prompt (preferences : Preferences)
    (imageUrl url : string) (v : DesignVariation) (items : list string) :
  storageFeatures v = VArray items ->
  url <> "" ->
  exists design,
    attempt v preferences imageUrl (Responds (Some url)) = Normal design
    /\ own_property design "generatedImage" = Some (VString url)
    /\ own_property design "imagePrompt" = Some (VString (composed_prompt v preferences items))
    /\ own_property design "imageStatus" = Some (VString "success").
Proof.
  intros Hitems Hurl. unfold attempt.
  rewrite (createImagePrompt_composed _ _ _ _ Hitems). cbn [bind].
  assert (Ht : truthy url = true)
    by (unfold truthy; now apply negb_true_iff, String.eqb_neq).
  rewrite Ht. eexists. split; [reflexivity|]. repeat split; reflexivity.
Qed.

Lemma successful_design_holds_url_and_prompt_witness :
  exists design,
    attempt sample_variation sample_preferences "data:image/png;base64,AAAA"
            (Responds (Some "https://images.example/kitchen.png"))
    = Normal design
    /\ own_property design "generatedImage"
       = Some (VString "https://images.example/kitchen.png")
    /\ own_property design "imagePrompt"
       = Some (VString (composed_prompt sample_variation sample_preferences
                          ["Pull-out drawers"; "Spice racks"; "Corner units";
                           "Wine storage"; "Pantry shelves"]))
    /\ own_property design "imageStatus" = Some (VString "success").
Proof.
  apply (successful_design_holds_url_and_prompt sample_preferences
           "data:image/png;base64,AAAA" "https://images.example/kitchen.png"
           sample_variation _ eq_refl).
  discriminate.
Defined.

(** ** The builder's helpers on every input *)

Section HelperFacts.

Lemma upper_char_idempotent (c : ascii) : upper_char (upper_char c) = upper_char c.
Proof. destruct c as [[] [] [] [] [] [] [] []]; reflexivity. Qed.

Lemma lower_upper_char (c : ascii) : lower_char (upper_char c) = lower_char c.
Proof. destruct c as [[] [] [] [] [] [] [] []]; reflexivity. Qed.

Lemma features_rows_have_four (storage : string) (items : list string) :
  own_property features storage = Some items -> length items = 4.
Proof.
  unfold features. cbn [own_property].
  repeat match goal with
  | |- context [if ?b then _ else _] => destruct b
  end; intros [= <-]; reflexivity.
Qed.

End HelperFacts.

(** On an ASCII string [capitalizeFirst] changes at most the case of the
    first character: the length is kept, the result differs from the
    argument in letter case only, capitalizing again changes nothing, and
    the result is an ASCII string. *)
Theorem capitalizeFirst_changes_case_only (str : string) :
  is_ascii str = true ->
  String.length (capitalizeFirst str) = String.length str
  /\ toLowerCase (capitalizeFirst str) = toLowerCase str
  /\ capitalizeFirst (capitalizeFirst str) = capitalizeFirst str
  /\ is_ascii (capitalizeFirst str) = true.
Proof.
  intros Ha. destruct str as [|c rest]; [repeat split|].
  split; [reflexivity|]. split; [cbn; now rewrite lower_upper_char|].
  split; [cbn; now rewrite upper_char_idempotent|].
  unfold is_ascii in *. cbn [capitalizeFirst all_chars] in *.
  apply andb_true_iff in Ha. destruct Ha as [Hc Hr]. rewrite Hr, andb_true_r.
  unfold upper_char.
  destruct ((97 <=? nat_of_ascii c)%nat && (nat_of_ascii c <=? 122)%nat) eqn:E;
    [|exact Hc].
  apply andb_true_iff in E. destruct E as [E1 E2].
  apply Nat.leb_le in E1, E2. apply Nat.ltb_lt.
  rewrite nat_ascii_embedding by lia. lia.
Qed.

Lemma capitalizeFirst_changes_case_only_witness :
  String.length (capitalizeFirst "farmhouse") = String.length "farmhouse"
  /\ toLowerCase (capitalizeFirst "farmhouse") = toLowerCase "farmhouse"
  /\ capitalizeFirst (capitalizeFirst "farmhouse") = capitalizeFirst "farmhouse"
  /\ is_ascii (capitalizeFirst "farmhouse") = true.
Proof. apply (capitalizeFirst_changes_case_only "farmhouse"). reflexivity. Defined.

(** The three variations of a request have three different names,
    whatever the style: the designs can be told apart by [styleName]. *)
Theorem variation_names_differ (preferences : Preferences) :
  inherited (storageNeeds preferences) = false ->
  exists v1 v2 v3,
    createDesignVariations preferences = Normal [v1; v2; v3]
    /\ NoDup [name v1; name v2; name v3].
Proof.
  intros Hi. unfold createDesignVariations. cbv zeta.
  destruct (getStorageFeatures_array _ primary Hi) as [s1 ->].
  destruct (getStorageFeatures_array _ enhanced Hi) as [s2 ->].
  destruct (getStorageFeatures_array _ value Hi) as [s3 ->].
  cbn [bind push app]. do 3 eexists. split; [reflexivity|].
  cbn [name]. repeat constructor; cbn [In]; intros H;
    repeat (destruct H as [H|H]; [discriminate H|]); exact H.
Qed.

Lemma variation_names_differ_witness :
  exists v1 v2 v3,
    createDesignVariations sample_preferences = Normal [v1; v2; v3]
    /\ NoDup [name v1; name v2; name v3].
Proof. apply (variation_names_differ sample_preferences). reflexivity. Defined.

(** The layout optimizations by tier: the value tier gets what the
    primary tier gets; the list is never empty; the enhanced tier gets the
    phrases the habits and needs matched, followed by its two own phrases,
    while the primary tier gets the matched phrases, or the three default
    phrases when nothing matched. *)
Theorem getLayoutOptimization_by_tier (cooking storage : string) :
  getLayoutOptimization cooking storage value
  = getLayoutOptimization cooking storage primary
  /\ getLayoutOptimization cooking storage primary <> []
  /\ exists matched,
       length matched <= 6
       /\ getLayoutOptimization cooking storage enhanced
          = (matched ++ [ "Smart appliance integration zones";
                          "Hidden storage solutions and secret compartments" ])%list
       /\ getLayoutOptimization cooking storage primary
          = match matched with
            | [] => [ "Improved workflow efficiency"; "Optimized storage placement";
                      "Enhanced counter workspace" ]
            | _ => matched
            end.
Proof.
  split; [reflexivity|]. split.
  - unfold getLayoutOptimization, push. cbv zeta.
    destruct (includes cooking "daily" || includes cooking "frequent");
    destruct (includes cooking "entertainer");
    destruct (includes storage "maximum"); discriminate.
  - exists (removelast (removelast (getLayoutOptimization cooking storage enhanced))).
    unfold getLayoutOptimization, push. cbv zeta.
    destruct (includes cooking "daily" || includes cooking "frequent");
    destruct (includes cooking "entertainer");
    destruct (includes storage "maximum");
    (split; [cbn; lia | split; reflexivity]).
Qed.

Section StorageFacts.

Lemma getStorageFeatures_by_tier (storage : string) :
  inherited storage = false ->
  exists items,
    length items = 4
    /\ getStorageFeatures storage primary = Normal (VArray items)
    /\ getStorageFeatures storage value = Normal (VArray items)
    /\ getStorageFeatures storage enhanced
       = Normal (VArray (items ++ enhanced_storage_features)%list).
Proof.
  intros Hi. unfold getStorageFeatures, get. rewrite Hi.
  destruct (own_property features storage) as [items|] eqn:E.
  - exists items. split; [exact (features_rows_have_four _ _ E)|]. now repeat split.
  - exists generic_storage_features. now repeat split.
Qed.

Lemma storage_clause_of_four (items more : list string) :
  length items = 4 -> storage_clause (items ++ more) = storage_clause items.
Proof.
  intros H. destruct items as [|a [|b [|c [|d [|]]]]]; try discriminate H. reflexivity.
Qed.

End StorageFacts.

(** For preferences whose [storageNeeds] names no member of
    [Object.prototype]: the primary and value variations have the same
    four storage features, the enhanced one has them followed by its two
    own, and the prompts of all three variations have the same storage
    clause, made of the first three of the four; the two features of the
    enhanced tier never reach a prompt. *)
Theorem storage_clause_same_for_all_tiers (preferences : Preferences)
    (originalImageUrl : string) :
  inherited (storageNeeds preferences) = false ->
  exists v1 v2 v3 items,
    createDesignVariations preferences = Normal [v1; v2; v3]
    /\ length items = 4
    /\ storageFeatures v1 = VArray items
    /\ storageFeatures v2 = VArray (items ++ enhanced_storage_features)%list
    /\ storageFeatures v3 = VArray items
    /\ Forall (fun v => createImagePrompt v preferences originalImageUrl
                        = Normal (composed_prompt v preferences items))
              [v1; v2; v3].
Proof.
  intros Hi.
  destruct (getStorageFeatures_by_tier _ Hi) as (items & Hlen & Ep & Ev & Ee).
  destruct (createDesignVariations_built _ Hi)
    as (v1 & v2 & v3 & s1 & s2 & s3 & E & H1 & H2 & H3 & G1 & G2 & G3 & _).
  rewrite Ep in G1. rewrite Ee in G2. rewrite Ev in G3.
  injection G1 as <-. injection G2 as <-. injection G3 as <-.
  exists v1, v2, v3, items. repeat (split; [assumption|]).
  repeat constructor.
  - apply createImagePrompt_composed, H1.
  - rewrite (createImagePrompt_composed _ _ _ _ H2).
    unfold composed_prompt. now rewrite storage_clause_of_four.
  - apply createImagePrompt_composed, H3.
Qed.

Lemma storage_clause_same_for_all_tiers_witness :
  exists v1 v2 v3 items,
    createDesignVariations sample_preferences = Normal [v1; v2; v3]
    /\ length items = 4
    /\ storageFeatures v1 = VArray items
    /\ storageFeatures v2 = VArray (items ++ enhanced_storage_features)%list
    /\ storageFeatures v3 = VArray items
    /\ Forall (fun v => createImagePrompt v sample_preferences "data:image/png;base64,AAAA"
                        = Normal (composed_prompt v sample_preferences items))
              [v1; v2; v3].
Proof.
  apply (storage_clause_same_for_all_tiers sample_preferences "data:image/png;base64,AAAA").
  reflexivity.
Defined.

(** For a budget range that names no member of [Object.prototype], the
    estimates of the three complexities are ordered: each is a range whose
    low amount is positive and below its high amount, and from
    ["standard"] to ["high"] to ["premium"] neither amount decreases. *)
Theorem estimates_ordered_by_complexity (budgetRange : string) :
  inherited budgetRange = false ->
  exists low_s high_s low_h high_h low_p high_p : Z,
    calculateCost budgetRange "standard" = formatted_range low_s high_s
    /\ calculateCost budgetRange "high" = formatted_range low_h high_h
    /\ calculateCost budgetRange "premium" = formatted_range low_p high_p
    /\ (0 < low_s <= low_h)%Z /\ (low_h <= low_p)%Z
    /\ (high_s <= high_h <= high_p)%Z
    /\ (low_s < high_s)%Z /\ (low_h < high_h)%Z /\ (low_p < high_p)%Z.
Proof.
  intros Hi.
  do 6 eexists.
  split; [apply (calculateCost_scaled budgetRange "standard" Hi eq_refl)|].
  split; [apply (calculateCost_scaled budgetRange "high" Hi eq_refl)|].
  split; [apply (calculateCost_scaled budgetRange "premium" Hi eq_refl)|].
  unfold bracket_of.
  repeat match goal with
  | |- context [if ?b then _ else _] => destruct b
  end; vm_compute; intuition discriminate.
Qed.

Lemma estimates_ordered_by_complexity_witness :
  exists low_s high_s low_h high_h low_p high_p : Z,
    calculateCost "80k-100k" "standard" = formatted_range low_s high_s
    /\ calculateCost "80k-100k" "high" = formatted_range low_h high_h
    /\ calculateCost "80k-100k" "premium" = formatted_range low_p high_p
    /\ (0 < low_s <= low_h)%Z /\ (low_h <= low_p)%Z
    /\ (high_s <= high_h <= high_p)%Z
    /\ (low_s < high_s)%Z /\ (low_h < high_h)%Z /\ (low_p < high_p)%Z.
Proof. apply (estimates_ordered_by_complexity "80k-100k"). reflexivity. Defined.
